(** * cup-backend: the chat-completion gateway of [app.py]

    A shallow embedding of [call_bedrock_api] and [chat_completions] and of
    the Python values they work on, followed by the properties of the
    gateway's specification.

    Python values are modelled as the interpreter has them after
    [json.loads]: strings are sequences of Unicode code points, dictionaries
    are ordered field lists, and an operation applied to a value of the wrong
    type raises.  Exceptions are explicit results ([exn + A]); printing and
    the outbound HTTP call are recorded in an event trace. *)

From Stdlib Require Import List NArith ZArith Bool String Ascii Lia DecimalString.
Import ListNotations.

Set Warnings "-register-all".

(* ------------------------------------------------------------------ *)
(** ** Python strings *)

Module PyStr.

(** A [str] is a sequence of code points. *)
Definition pystr : Type := list N.

(** String literals of the source: every character of an ASCII literal is
    its own code point. *)
Definition lit (s : string) : pystr := map N_of_ascii (list_ascii_of_string s).
Arguments lit s%_string.

Fixpoint str_eqb (a b : pystr) : bool :=
  match a, b with
  | [], [] => true
  | x :: a', y :: b' => N.eqb x y && str_eqb a' b'
  | _, _ => false
  end.

(** [s.startswith(p)] *)
Fixpoint startswith (p s : pystr) : bool :=
  match p, s with
  | [], _ => true
  | x :: p', y :: s' => N.eqb x y && startswith p' s'
  | _ :: _, [] => false
  end.

(** [ch.isspace()], the table of CPython's [_PyUnicode_IsWhitespace]. *)
Definition isspace (c : N) : bool :=
  ((9 <=? c) && (c <=? 13) || (28 <=? c) && (c <=? 32)
   || (c =? 133) || (c =? 160) || (c =? 5760)
   || (8192 <=? c) && (c <=? 8202)
   || (c =? 8232) || (c =? 8233) || (c =? 8239) || (c =? 8287)
   || (c =? 12288))%N.

Fixpoint lstrip (s : pystr) : pystr :=
  match s with
  | [] => []
  | c :: t => if isspace c then lstrip t else s
  end.

Definition rstrip (s : pystr) : pystr := rev (lstrip (rev s)).

(** [s.strip()] *)
Definition strip (s : pystr) : pystr := rstrip (lstrip s).

(** [s.split(sep, n)] for a one-character separator: at most [n] cuts,
    left to right.  The result is never empty. *)
Fixpoint splitn (sep : N) (n : nat) (s : pystr) : list pystr :=
  match s with
  | [] => [[]]
  | c :: t =>
      if N.eqb c sep then
        match n with
        | O => [s]
        | S k => [] :: splitn sep k t
        end
      else
        match splitn sep n t with
        | [] => [[c]]
        | p :: ps => (c :: p) :: ps
        end
  end.

(** [s.split(sep)]: no bound on the cuts (a string of length [n] has at
    most [n] separators). *)
Definition split (sep : N) (s : pystr) : list pystr := splitn sep (List.length s) s.

(** [s.replace(old, new)] for a non-empty [old]: occurrences are replaced
    left to right without overlap; [skip] counts the characters of a matched
    occurrence still to be dropped. *)
Fixpoint replace_from (old new : pystr) (skip : nat) (s : pystr) : pystr :=
  match s with
  | [] => []
  | c :: t =>
      match skip with
      | S k => replace_from old new k t
      | O =>
          if startswith old s
          then new ++ replace_from old new (pred (List.length old)) t
          else c :: replace_from old new O t
      end
  end.

Definition replace (old new s : pystr) : pystr := replace_from old new O s.

(** [sep.join(parts)] *)
Fixpoint join (sep : pystr) (parts : list pystr) : pystr :=
  match parts with
  | [] => []
  | [p] => p
  | p :: rest => p ++ sep ++ join sep rest
  end.

(** [str(n)] for an [int]. *)
Definition str_of_Z (z : Z) : pystr := lit (NilZero.string_of_int (Z.to_int z)).

Definition hex_digit (d : N) : N :=
  nth (N.to_nat d) (lit "0123456789abcdef") 48%N.

(** The [%02x] of C's [printf], for a byte. *)
Definition hex2 (b : N) : pystr := [hex_digit (b / 16); hex_digit (b mod 16)]%N.

Definition newline : pystr := [10%N].
Definition dquote : pystr := [34%N].

End PyStr.
Import PyStr.

(* ------------------------------------------------------------------ *)
(** ** Python values and exceptions *)

Module Py.

(** A value decoded from JSON.  The program never computes with numbers, so
    a [float] is carried as its literal. *)
Inductive json : Type :=
| JNull
| JBool (b : bool)
| JInt (z : Z)
| JFloat (literal : pystr)
| JStr (s : pystr)
| JArr (items : list json)
| JObj (fields : list (pystr * json)).

(** The exceptions the program can meet.  [External] is raised inside Flask
    or requests (a rejected body, a network failure, an undecodable vendor
    body); its text is the library's. *)
Inductive exn : Type :=
| AttributeError (ty attr : pystr)
| TypeError (msg : pystr)
| ValueError (msg : pystr)
| IndexError (msg : pystr)
| KeyError (key_repr : pystr)
| BinasciiError (msg : pystr)
| UnicodeDecodeError (byte start stop : N) (reason : pystr)
| External (msg : pystr)
| UnicodeEncodeError (msg : pystr)
| RecursionError (msg : pystr).

(** [str(e)] *)
Definition str_exn (e : exn) : pystr :=
  match e with
  | AttributeError ty attr =>
      lit "'" ++ ty ++ lit "' object has no attribute '" ++ attr ++ lit "'"
  | TypeError msg | ValueError msg | IndexError msg | BinasciiError msg
  | External msg | UnicodeEncodeError msg | RecursionError msg => msg
  | KeyError k => k
  | UnicodeDecodeError byte start stop reason =>
      if N.eqb stop (start + 1) then
        lit "'utf-8' codec can't decode byte 0x" ++ hex2 byte
          ++ lit " in position " ++ str_of_Z (Z.of_N start)
          ++ lit ": " ++ reason
      else
        lit "'utf-8' codec can't decode bytes in position "
          ++ str_of_Z (Z.of_N start) ++ lit "-" ++ str_of_Z (Z.of_N stop - 1)
          ++ lit ": " ++ reason
  end.

(** Computations that may raise. *)
Definition result (A : Type) : Type := (exn + A)%type.

Definition bind {A B} (m : result A) (f : A -> result B) : result B :=
  match m with
  | inl e => inl e
  | inr a => f a
  end.

Notation "x <- m ;; k" := (bind m (fun x => k))
  (at level 61, m at next level, right associativity).

(** [type(v).__name__] *)
Definition type_name (v : json) : pystr :=
  match v with
  | JNull => lit "NoneType"
  | JBool _ => lit "bool"
  | JInt _ => lit "int"
  | JFloat _ => lit "float"
  | JStr _ => lit "str"
  | JArr _ => lit "list"
  | JObj _ => lit "dict"
  end.

(** The entry of a key in a dict, as an ordered list of entries. *)
Fixpoint lookup {V : Type} (k : pystr) (entries : list (pystr * V)) : option V :=
  match entries with
  | [] => None
  | (k', v) :: rest => if str_eqb k k' then Some v else lookup k rest
  end.

(** [d.get(k, dflt)] on a dict. *)
Definition get_default {V : Type} (k : pystr) (entries : list (pystr * V)) (dflt : V) : V :=
  match lookup k entries with
  | Some x => x
  | None => dflt
  end.

(** [v.get(k, dflt)]: only a [dict] has the method. *)
Definition py_get (v : json) (k : pystr) (dflt : json) : result json :=
  match v with
  | JObj fields => inr (get_default k fields dflt)
  | _ => inl (AttributeError (type_name v) (lit "get"))
  end.

(** [v == s] for a string literal [s]. *)
Definition eq_str (v : json) (s : pystr) : bool :=
  match v with
  | JStr t => str_eqb t s
  | _ => false
  end.

(** [v + s] for a string [s] on the right. *)
Definition py_add_str (v : json) (s : pystr) : result pystr :=
  match v with
  | JStr t => inr (t ++ s)
  | JArr _ =>
      inl (TypeError (lit "can only concatenate list (not " ++ dquote
                        ++ lit "str" ++ dquote ++ lit ") to list"))
  | _ =>
      inl (TypeError (lit "unsupported operand type(s) for +: '"
                        ++ type_name v ++ lit "' and 'str'"))
  end.

(** [for x in v]: the elements of a list, the characters of a string, the
    keys of a dict; nothing else is iterable. *)
Definition py_iter (v : json) : result (list json) :=
  match v with
  | JArr items => inr items
  | JStr s => inr (map (fun c => JStr [c]) s)
  | JObj fields => inr (map (fun kv => JStr (fst kv)) fields)
  | _ => inl (TypeError (lit "'" ++ type_name v ++ lit "' object is not iterable"))
  end.

(** [v[0]].  The keys of a decoded JSON object are strings, so the key [0]
    is never found in one. *)
Definition py_first (v : json) : result json :=
  match v with
  | JArr (x :: _) => inr x
  | JArr [] => inl (IndexError (lit "list index out of range"))
  | JStr (c :: _) => inr (JStr [c])
  | JStr [] => inl (IndexError (lit "string index out of range"))
  | JObj _ => inl (KeyError (lit "0"))
  | _ => inl (TypeError (lit "'" ++ type_name v ++ lit "' object is not subscriptable"))
  end.

(** [l[i]] on a list of strings. *)
Definition list_item (l : list pystr) (i : nat) : result pystr :=
  match nth_error l i with
  | Some x => inr x
  | None => inl (IndexError (lit "list index out of range"))
  end.

(** [v.startswith(p)]: only a [str] has the method. *)
Definition py_startswith (v : json) (p : pystr) : result bool :=
  match v with
  | JStr s => inr (startswith p s)
  | _ => inl (AttributeError (type_name v) (lit "startswith"))
  end.

End Py.
Import Py.

(* ------------------------------------------------------------------ *)
(** ** The library codecs the credential goes through *)

Module Codec.

Local Open Scope N_scope.

(** The base64 alphabet ([table_a2b_base64] of CPython's binascii). *)
Definition b64_value (c : N) : option N :=
  if (65 <=? c) && (c <=? 90) then Some (c - 65)
  else if (97 <=? c) && (c <=? 122) then Some (c - 71)
  else if (48 <=? c) && (c <=? 57) then Some (c + 4)
  else if c =? 43 then Some 62
  else if c =? 47 then Some 63
  else None.

(** [binascii.a2b_base64] in its default, non-strict mode: characters
    outside the alphabet are skipped, a pad sequence that completes a quad
    ends the input, and a quad left open at the end is an error. *)
Fixpoint a2b_base64 (data : list N) (quad_pos leftchar pads : N) (out : list N)
  : result (list N) :=
  match data with
  | [] =>
      if quad_pos =? 0 then inr out
      else if quad_pos =? 1 then
        inl (BinasciiError
               (lit "Invalid base64-encoded string: number of data characters ("
                  ++ str_of_Z (Z.of_N (N.of_nat (List.length out) / 3 * 4 + 1))
                  ++ lit ") cannot be 1 more than a multiple of 4"))
      else inl (BinasciiError (lit "Incorrect padding"))
  | this_ch :: rest =>
      if this_ch =? 61 then
        if 2 <=? quad_pos then
          if 4 <=? quad_pos + (pads + 1) then inr out
          else a2b_base64 rest quad_pos leftchar (pads + 1) out
        else a2b_base64 rest quad_pos leftchar pads out
      else
        match b64_value this_ch with
        | None => a2b_base64 rest quad_pos leftchar pads out
        | Some v =>
            if quad_pos =? 0 then a2b_base64 rest 1 v 0 out
            else if quad_pos =? 1 then
              a2b_base64 rest 2 (N.land v 15) 0
                (out ++ [N.lor (N.shiftl leftchar 2) (N.shiftr v 4) mod 256])
            else if quad_pos =? 2 then
              a2b_base64 rest 3 (N.land v 3) 0
                (out ++ [N.lor (N.shiftl leftchar 4) (N.shiftr v 2) mod 256])
            else
              a2b_base64 rest 0 0 0
                (out ++ [N.lor (N.shiftl leftchar 6) v mod 256])
        end
  end.

(** [base64.b64decode(s)] for a [str] argument: the string is first encoded
    as ASCII. *)
Definition b64decode (s : pystr) : result (list N) :=
  if forallb (fun c => c <? 128) s then a2b_base64 s 0 0 0 []
  else inl (ValueError (lit "string argument should contain only ASCII characters")).

Definition is_continuation (b : N) : bool := (128 <=? b) && (b <? 192).

(** [bytes.decode('utf-8')] with the default strict error handler, after
    CPython's [utf8_decode]: overlong forms, surrogates and code points past
    U+10FFFF are refused.  [pos] is the offset of [s] in the whole input. *)
Fixpoint utf8_decode (s : list N) (pos : N) : result pystr :=
  let stop_all := pos + N.of_nat (List.length s) in
  match s with
  | [] => inr []
  | ch :: s1 =>
      let invalid_start : result pystr :=
        inl (UnicodeDecodeError ch pos (pos + 1) (lit "invalid start byte")) in
      let invalid_continuation (k : N) : result pystr :=
        inl (UnicodeDecodeError ch pos (pos + k) (lit "invalid continuation byte")) in
      let truncated : result pystr :=
        inl (UnicodeDecodeError ch pos stop_all (lit "unexpected end of data")) in
      if ch <? 128 then
        r <- utf8_decode s1 (pos + 1) ;; inr (ch :: r)
      else if ch <? 224 then
        if ch <? 194 then invalid_start
        else
          match s1 with
          | [] => truncated
          | ch2 :: s2 =>
              if negb (is_continuation ch2) then invalid_continuation 1
              else
                r <- utf8_decode s2 (pos + 2) ;;
                inr ((ch * 64 + ch2 - (192 * 64 + 128)) :: r)
          end
      else if ch <? 240 then
        match s1 with
        | [] => truncated
        | ch2 :: s2 =>
            if negb (is_continuation ch2)
               || (if ch2 <? 160 then ch =? 224 else ch =? 237)
            then invalid_continuation 1
            else
              match s2 with
              | [] => truncated
              | ch3 :: s3 =>
                  if negb (is_continuation ch3) then invalid_continuation 2
                  else
                    r <- utf8_decode s3 (pos + 3) ;;
                    inr ((ch * 4096 + ch2 * 64 + ch3
                          - (224 * 4096 + 128 * 64 + 128)) :: r)
              end
        end
      else if ch <? 245 then
        match s1 with
        | [] => truncated
        | ch2 :: s2 =>
            if negb (is_continuation ch2)
               || (if ch2 <? 144 then ch =? 240 else ch =? 244)
            then invalid_continuation 1
            else
              match s2 with
              | [] => truncated
              | ch3 :: s3 =>
                  if negb (is_continuation ch3) then invalid_continuation 2
                  else
                    match s3 with
                    | [] => truncated
                    | ch4 :: s4 =>
                        if negb (is_continuation ch4) then invalid_continuation 3
                        else
                          r <- utf8_decode s4 (pos + 4) ;;
                          inr ((ch * 262144 + ch2 * 4096 + ch3 * 64 + ch4
                                - (240 * 262144 + 128 * 4096 + 128 * 64 + 128)) :: r)
                    end
              end
        end
      else invalid_start
  end.

End Codec.
Import Codec.

(* ------------------------------------------------------------------ *)
(** ** The gateway *)

Module App.

(** What [requests.post] is given and what it gives back. *)
Record request : Type := {
  url : pystr;
  headers : list (pystr * pystr);
  json_payload : json;
  timeout : Z
}.

Record response : Type := {
  status_code : Z;
  text : pystr;
  json_body : result json          (* [response.json()] *)
}.

(** The effects of a run, in order: lines printed and outbound calls made. *)
Inductive event : Type :=
| EPrint (line : pystr)
| EPost (req : request).

(** A traced computation: the events so far and how it ended. *)
Definition io (A : Type) : Type := (list event * result A)%type.

Definition ret {A} (a : A) : io A := ([], inr a).

Definition lift {A} (r : result A) : io A := ([], r).

(** What the interpreter around the program decides: the exception, if
    any, that writing a line to stdout raises (a [UnicodeEncodeError] when
    the stream's codec cannot encode it), and the exception, if any, that
    the JSON encoder raises for a value (a [RecursionError] when it is
    nested deeper than the stack allows). *)
Record runtime : Type := {
  stdout_refuses : pystr -> option exn;
  encoder_refuses : json -> option exn
}.

(** [print(line)]: a line of ASCII characters is always written; for any
    other line the codec of stdout decides. *)
Definition print (py : runtime) (line : pystr) : io unit :=
  if forallb (fun c => N.ltb c 128) line then ([EPrint line], inr tt)
  else
    match stdout_refuses py line with
    | Some e => ([], inl e)
    | None => ([EPrint line], inr tt)
    end.

Definition io_bind {A B} (m : io A) (f : A -> io B) : io B :=
  match m with
  | (ev, inl e) => (ev, inl e)
  | (ev, inr a) => let (ev', r) := f a in (ev ++ ev', r)
  end.

Notation "x <~ m ;; k" := (io_bind m (fun x => k))
  (at level 61, m at next level, right associativity).
Notation "m ;;; k" := (io_bind m (fun _ => k))
  (at level 61, right associativity).

(** *** Translation of the messages (lines 42-96) *)

Definition text_block (t : json) : json :=
  JObj [(lit "type", JStr (lit "text")); (lit "text", t)].

Definition image_block (mime_type data : pystr) : json :=
  JObj [(lit "type", JStr (lit "image"));
        (lit "source",
         JObj [(lit "type", JStr (lit "base64"));
               (lit "media_type", JStr mime_type);
               (lit "data", JStr data)])].

(** [v.split(',', 1)] *)
Definition py_split_once (v : json) : result (list pystr) :=
  match v with
  | JStr s => inr (splitn 44 1 s)
  | _ => inl (AttributeError (type_name v) (lit "split"))
  end.

(** [a, b = parts] *)
Definition unpack2 (parts : list pystr) : result (pystr * pystr) :=
  match parts with
  | [a; b] => inr (a, b)
  | [] | [_] =>
      inl (ValueError (lit "not enough values to unpack (expected 2, got "
                         ++ str_of_Z (Z.of_nat (List.length parts)) ++ lit ")"))
  | _ => inl (ValueError (lit "too many values to unpack (expected 2)"))
  end.

(** One pass of [for item in content]: the blocks the item appends to
    [claude_content]. *)
Definition translate_item (item : json) : result (list json) :=
  ty <- py_get item (lit "type") JNull ;;
  if eq_str ty (lit "text") then
    t <- py_get item (lit "text") (JStr (lit "")) ;;
    inr [text_block t]
  else
    ty' <- py_get item (lit "type") JNull ;;
    if eq_str ty' (lit "image_url") then
      iu <- py_get item (lit "image_url") (JObj []) ;;
      image_url <- py_get iu (lit "url") (JStr (lit "")) ;;
      is_data <- py_startswith image_url (lit "data:image/") ;;
      if is_data : bool then
        parts <- py_split_once image_url ;;
        hd <- unpack2 parts ;;
        let (header, data) := hd : pystr * pystr in
        after_colon <- list_item (split 58 header) 1 ;;
        mime_type <- list_item (split 59 after_colon) 0 ;;
        inr [image_block mime_type data]
      else inr []
    else inr [].

Fixpoint translate_content (content claude_content : list json)
  : result (list json) :=
  match content with
  | [] => inr claude_content
  | item :: rest =>
      blocks <- translate_item item ;;
      translate_content rest (claude_content ++ blocks)
  end.

Definition claude_message (role content : json) : json :=
  JObj [(lit "role", role); (lit "content", content)].

(** One pass of [for msg in messages] over the two accumulators
    [system_prompt] and [claude_messages]. *)
Definition translate_message (st : pystr * list json) (msg : json)
  : result (pystr * list json) :=
  let (system_prompt, claude_messages) := st in
  role <- py_get msg (lit "role") JNull ;;
  if eq_str role (lit "system") then
    c <- py_get msg (lit "content") (JStr (lit "")) ;;
    line <- py_add_str c newline ;;
    inr (system_prompt ++ line, claude_messages)
  else
    role' <- py_get msg (lit "role") JNull ;;
    if eq_str role' (lit "user") || eq_str role' (lit "assistant") then
      content <- py_get msg (lit "content") (JStr (lit "")) ;;
      match content with
      | JArr items =>
          claude_content <- translate_content items [] ;;
          r <- py_get msg (lit "role") JNull ;;
          inr (system_prompt,
               claude_messages ++ [claude_message r (JArr claude_content)])
      | _ =>
          r <- py_get msg (lit "role") JNull ;;
          inr (system_prompt, claude_messages ++ [claude_message r content])
      end
    else inr st.

Fixpoint translate_messages (messages : list json) (st : pystr * list json)
  : result (pystr * list json) :=
  match messages with
  | [] => inr st
  | msg :: rest =>
      st' <- translate_message st msg ;;
      translate_messages rest st'
  end.

(** The payload, with its [system] entry only when the stripped prompt is
    not empty. *)
Definition bedrock_payload (system_prompt : pystr) (claude_messages : list json)
  : json :=
  JObj ([(lit "anthropic_version", JStr (lit "bedrock-2023-05-31"));
         (lit "messages", JArr claude_messages);
         (lit "max_tokens", JInt 1000)]
        ++ match strip system_prompt with
           | [] => []
           | _ :: _ => [(lit "system", JStr (strip system_prompt))]
           end).

(** The whole translation step: from the inbound [messages] value to the
    vendor payload. *)
Definition translate (messages : json) : result json :=
  msgs <- py_iter messages ;;
  st <- translate_messages msgs (lit "", []) ;;
  inr (bedrock_payload (fst st) (snd st)).

Definition bedrock_url : pystr :=
  lit "https://bedrock-runtime.eu-central-1.amazonaws.com/model/eu.anthropic.claude-sonnet-4-5-20250929-v1:0/invoke".

(** Lines 38-39: the credential without its prefix, padded and decoded. *)
Definition decode_credential (token : pystr) : result pystr :=
  let encoded_url := replace (lit "bedrock-api-key-") (lit "") token in
  raw <- b64decode (encoded_url ++ lit "===") ;;
  utf8_decode raw 0.

(** Line 116: the reply text of a vendor body. *)
Definition reply_text (result : json) : Py.result json :=
  c <- py_get result (lit "content") (JArr [JObj []]) ;;
  first <- py_first c ;;
  py_get first (lit "text") (JStr (lit "No response")).

Section Gateway.

(** The process environment at start-up and the HTTP transport. *)
Variable environ : list (pystr * pystr).
Variable py : runtime.
Variable requests_post : request -> result response.

(** Line 27: the credential, read from the environment with the empty
    string as default. *)
Definition BEARER_TOKEN : pystr :=
  get_default (lit "BEARER_TOKEN") environ (lit "").

Definition post (req : request) : io response := ([EPost req], requests_post req).

(** Lines 41-119, with [decoded_url] bound as in the source. *)
Definition call_with_decoded_url (decoded_url : pystr) (messages : json)
  : io json :=
  payload <~ lift (translate messages) ;;
  let hdrs := [(lit "Content-Type", lit "application/json");
               (lit "Authorization", lit "Bearer " ++ BEARER_TOKEN)] in
  resp <~ post {| url := bedrock_url; headers := hdrs;
                  json_payload := payload; timeout := 30 |} ;;
  if Z.eqb (status_code resp) 200 then
    result <~ lift (json_body resp) ;;
    lift (reply_text result)
  else
    print py (lit "Bedrock API error: " ++ str_of_Z (status_code resp)
                ++ lit " - " ++ text resp) ;;;
    ret (JStr (lit "Error calling Bedrock: " ++ str_of_Z (status_code resp))).

(** The body of the [try] of [call_bedrock_api]. *)
Definition call_bedrock_api_try (messages model : json) : io json :=
  match BEARER_TOKEN with
  | [] =>
      print py (lit "CRITICAL ERROR: BEARER_TOKEN is missing. Check App Runner Configuration.") ;;;
      ret (JStr (lit "Error: Server API Token is not configured."))
  | _ :: _ =>
      decoded_url <~ lift (decode_credential BEARER_TOKEN) ;;
      call_with_decoded_url decoded_url messages
  end.

(** [call_bedrock_api(messages, model)]: the reply, and the trace.  The
    line the handler prints (line 122) is recorded as printed. *)
Definition call_bedrock_api (messages model : json) : list event * json :=
  match call_bedrock_api_try messages model with
  | (ev, inr v) => (ev, v)
  | (ev, inl e) =>
      (ev ++ [EPrint (lit "Exception calling Bedrock: " ++ str_exn e)],
       JStr (lit "Error: " ++ str_exn e))
  end.

(** *** The route [/v1/chat/completions] *)

Inductive http_method : Type := POST | OPTIONS.

Record http_response : Type := {
  status : Z;
  body : json;
  set_headers : list (pystr * pystr)     (* those the handler sets itself *)
}.

(** The response [jsonify(v)] builds once [v] is encoded: a JSON response
    with status 200. *)
Definition jsonify (v : json) : http_response :=
  {| status := 200; body := v; set_headers := [] |}.

(** [jsonify(v)] for a value that comes from the request or the vendor
    (line 187): the encoder may raise. *)
Definition try_jsonify (v : json) : result http_response :=
  match encoder_refuses py v with
  | Some e => inl e
  | None => inr (jsonify v)
  end.

Definition completion (model bedrock_response : json) : json :=
  JObj [(lit "id", JStr (lit "chatcmpl-bedrock"));
        (lit "object", JStr (lit "chat.completion"));
        (lit "created", JInt 1234567890);
        (lit "model", model);
        (lit "choices",
         JArr [JObj [(lit "index", JInt 0);
                     (lit "message",
                      JObj [(lit "role", JStr (lit "assistant"));
                            (lit "content", bedrock_response)]);
                     (lit "finish_reason", JStr (lit "stop"))]]);
        (lit "usage",
         JObj [(lit "prompt_tokens", JInt 10);
               (lit "completion_tokens", JInt 20);
               (lit "total_tokens", JInt 30)])].

(** The body of the handler's [try]; [request_json] is what evaluating
    [request.json] gives: the decoded body, or the exception Flask raises
    for a body it cannot decode. *)
Definition chat_completions_try (request_json : result json) : io http_response :=
  data <~ lift request_json ;;
  messages <~ lift (py_get data (lit "messages") (JArr [])) ;;
  model <~ lift (py_get data (lit "model") (JStr (lit "claude-sonnet-4"))) ;;
  let (ev, bedrock_response) := call_bedrock_api messages model in
  (ev, try_jsonify (completion model bedrock_response)).

(** [chat_completions]; the envelope of line 190 is one string under one
    key, which the encoder takes as it is. *)
Definition chat_completions (method : http_method) (request_json : result json)
  : list event * http_response :=
  match method with
  | OPTIONS =>
      ([EPrint (lit "Handling OPTIONS request for /v1/chat/completions")],
       {| status := 200; body := JObj [];
          set_headers :=
            [(lit "Access-Control-Allow-Origin", lit "*");
             (lit "Access-Control-Allow-Methods", lit "POST, OPTIONS");
             (lit "Access-Control-Allow-Headers", lit "Content-Type, Authorization")] |})
  | POST =>
      match chat_completions_try request_json with
      | (ev, inr r) => (ev, r)
      | (ev, inl e) =>
          (ev, {| status := 500;
                  body := JObj [(lit "error", JStr (str_exn e))];
                  set_headers := [] |})
      end
  end.

End Gateway.

End App.
Import App.

(* ------------------------------------------------------------------ *)
(** ** Vocabulary of the specification *)

Module Spec.

(** The entry [k] of a JSON object. *)
Definition field (k : pystr) (v : json) : option json :=
  match v with
  | JObj fields => lookup k fields
  | _ => None
  end.

(** [msg.get("role")] of a message that is an object. *)
Definition role_of (msg : json) : json :=
  match msg with
  | JObj fields => get_default (lit "role") fields JNull
  | _ => JNull
  end.

(** The roles that make a conversation turn. *)
Definition is_turn (role : json) : bool :=
  eq_str role (lit "user") || eq_str role (lit "assistant").

(** The outbound calls of a trace. *)
Fixpoint posts (ev : list event) : list request :=
  match ev with
  | [] => []
  | EPost r :: rest => r :: posts rest
  | EPrint _ :: rest => posts rest
  end.

Definition succeeds {A} (r : result A) : bool :=
  match r with
  | inr _ => true
  | inl _ => false
  end.

Definition has_comma (s : pystr) : bool := existsb (N.eqb 44) s.

(** A content item the translation can go through: an object; when its
    type is [image_url], the [image_url] entry (if any) is an object whose
    [url] (if any) is a string, with a comma in it when it starts with
    [data:image/]. *)
Definition well_formed_item (item : json) : bool :=
  match item with
  | JObj f =>
      if eq_str (get_default (lit "type") f JNull) (lit "text") then true
      else if eq_str (get_default (lit "type") f JNull) (lit "image_url") then
        match get_default (lit "image_url") f (JObj []) with
        | JObj g =>
            match get_default (lit "url") g (JStr []) with
            | JStr u => negb (startswith (lit "data:image/") u) || has_comma u
            | _ => false
            end
        | _ => false
        end
      else true
  | _ => false
  end.

(** A message the translation can go through: an object; a string as
    content when its role is [system]; well-formed items when its role is
    [user] or [assistant] and its content is a list. *)
Definition well_formed_message (msg : json) : bool :=
  match msg with
  | JObj f =>
      if eq_str (role_of msg) (lit "system") then
        match get_default (lit "content") f (JStr []) with
        | JStr _ => true
        | _ => false
        end
      else if is_turn (role_of msg) then
        match get_default (lit "content") f (JStr []) with
        | JArr items => forallb well_formed_item items
        | _ => true
        end
      else true
  | _ => false
  end.

(** [msg] is a system message whose text is [t] (an absent content is the
    empty text). *)
Definition system_message (msg : json) (t : pystr) : Prop :=
  exists f, msg = JObj f
            /\ lookup (lit "role") f = Some (JStr (lit "system"))
            /\ get_default (lit "content") f (JStr []) = JStr t.

(** [out] is the entry the loop appends for the message [msg]: the role of
    [msg], and its content as it is, or rebuilt block by block when it is
    a list. *)
Definition entry_of (msg out : json) : Prop :=
  exists f c,
    msg = JObj f /\ out = claude_message (role_of msg) c
    /\ match get_default (lit "content") f (JStr (lit "")) with
       | JArr items =>
           exists blocks, translate_content items [] = inr blocks /\ c = JArr blocks
       | other => c = other
       end.

(** [s] has no character of [seps]. *)
Definition free_of (seps : list N) (s : pystr) : Prop :=
  forall c, In c s -> ~ In c seps.

(** The one request the gateway sends for a payload. *)
Definition vendor_request (token : pystr) (payload : json) : request :=
  {| url := bedrock_url;
     headers := [(lit "Content-Type", lit "application/json");
                 (lit "Authorization", lit "Bearer " ++ token)];
     json_payload := payload;
     timeout := 30 |}.

(** How the call goes on once the payload is built. *)
Definition after_post (token : pystr) (py : runtime)
    (requests_post : request -> result response) (payload : json) : io json :=
  io_bind (post requests_post (vendor_request token payload)) (fun resp =>
    if Z.eqb (status_code resp) 200 then
      io_bind (lift (json_body resp)) (fun result => lift (reply_text result))
    else
      io_bind (print py (lit "Bedrock API error: " ++ str_of_Z (status_code resp)
                        ++ lit " - " ++ text resp))
              (fun _ => ret (JStr (lit "Error calling Bedrock: "
                                     ++ str_of_Z (status_code resp))))).

End Spec.
Import Spec.

(* ------------------------------------------------------------------ *)
(** ** Sample inputs *)

Module Sample.

Definition message (role : string) (content : json) : json :=
  JObj [(lit "role", JStr (lit role)); (lit "content", content)].

Definition image_item (u : string) : json :=
  JObj [(lit "type", JStr (lit "image_url"));
        (lit "image_url", JObj [(lit "url", JStr (lit u))])].

Definition text_item (t : string) : json :=
  JObj [(lit "type", JStr (lit "text")); (lit "text", JStr (lit t))].

(** A start-up environment holding the credential [token]. *)
Definition environ_with (token : string) : list (pystr * pystr) :=
  [(lit "PORT", lit "8080"); (lit "BEARER_TOKEN", lit token)].

(** A vendor that answers every call with status [code] and body [b]. *)
Definition vendor (code : Z) (b : json) (_ : request) : result response :=
  inr {| status_code := code; text := lit "{}"; json_body := inr b |}.

(** A vendor reply with one text block. *)
Definition reply (t : string) : json :=
  JObj [(lit "content", JArr [JObj [(lit "type", JStr (lit "text"));
                                   (lit "text", JStr (lit t))]])].

(** An interpreter whose stdout and encoder take everything. *)
Definition lenient : runtime :=
  {| stdout_refuses := fun _ => None; encoder_refuses := fun _ => None |}.

(** An interpreter with an ASCII stdout and an encoder out of stack. *)
Definition strict : runtime :=
  {| stdout_refuses := fun _ =>
       Some (UnicodeEncodeError
               (lit "'ascii' codec can't encode characters: ordinal not in range(128)"));
     encoder_refuses := fun _ =>
       Some (RecursionError
               (lit "maximum recursion depth exceeded while encoding a JSON object")) |}.

(** What Flask raises for a body that is no JSON. *)
Definition bad_request : exn :=
  External (lit "400 Bad Request: The browser (or proxy) sent a request that this server could not understand.").

End Sample.

(* ------------------------------------------------------------------ *)
(** ** The other views and the request cycle *)

Module Server.

(** The URL rules the file registers with [@app.route]. *)
Inductive rule : Type :=
| RuleModels            (* '/v1/models', methods GET and OPTIONS *)
| RuleChat.             (* '/v1/chat/completions', methods POST and OPTIONS *)

(** What the views and the hook read of the inbound request. *)
Record inbound : Type := {
  req_method : pystr;              (* [request.method] *)
  req_path : pystr;                (* [request.path] *)
  req_rule : option rule;          (* the rule the URL matched, if any *)
  req_headers_text : pystr;        (* what [dict(request.headers)] formats to *)
  req_json : result json           (* [request.json] *)
}.

(** [handle_preflight], registered with [@app.before_request]: [None] lets
    the request go on to its view. *)
Definition handle_preflight (req : inbound) : list event * option http_response :=
  if str_eqb (req_method req) (lit "OPTIONS") then
    ([EPrint (lit "Global OPTIONS handler for " ++ req_path req);
      EPrint (lit "Request headers: " ++ req_headers_text req)],
     Some {| status := 200;
             body := JObj [];
             set_headers :=
               [(lit "Access-Control-Allow-Origin", lit "*");
                (lit "Access-Control-Allow-Headers",
                 lit "Content-Type,Authorization,Accept,Accept-Language,Accept-Encoding,Connection,Host,Origin,Referer,Sec-Fetch-Dest,Sec-Fetch-Mode,Sec-Fetch-Site,User-Agent");
                (lit "Access-Control-Allow-Methods", lit "GET,PUT,POST,DELETE,OPTIONS");
                (lit "Access-Control-Max-Age", lit "3600")] |})
  else ([], None).

(** The listing of [list_models]. *)
Definition models : json :=
  JObj [(lit "object", JStr (lit "list"));
        (lit "data",
         JArr [JObj [(lit "id", JStr (lit "claude-sonnet-4.5"));
                     (lit "object", JStr (lit "model"));
                     (lit "created", JInt 1234567890);
                     (lit "owned_by", JStr (lit "anthropic"));
                     (lit "permission", JArr []);
                     (lit "root", JStr (lit "claude-sonnet-4"));
                     (lit "parent", JNull)]])].

(** [list_models], for the method of the request. *)
Definition list_models (method : pystr) : http_response :=
  if str_eqb method (lit "OPTIONS") then
    {| status := 200;
       body := JObj [];
       set_headers :=
         [(lit "Access-Control-Allow-Origin", lit "*");
          (lit "Access-Control-Allow-Methods", lit "GET, OPTIONS");
          (lit "Access-Control-Allow-Headers", lit "Content-Type, Authorization")] |}
  else jsonify models.

(** One request cycle, as Flask runs the registered functions: the
    [before_request] hook first, whatever the URL; its answer, if it gives
    one, is the response and no view runs; otherwise the view of the
    matched rule, for a method the rule lists (werkzeug adds HEAD to a rule
    that lists GET).  [None] stands for a request the framework answers
    itself (no rule, or a method the rule does not list). *)
Definition serve (environ : list (pystr * pystr)) (py : runtime)
    (requests_post : request -> result response) (req : inbound)
  : list event * option http_response :=
  match handle_preflight req with
  | (ev, Some r) => (ev, Some r)
  | (ev, None) =>
      match req_rule req with
      | Some RuleModels =>
          if str_eqb (req_method req) (lit "GET")
             || str_eqb (req_method req) (lit "HEAD")
             || str_eqb (req_method req) (lit "OPTIONS")
          then (ev, Some (list_models (req_method req)))
          else (ev, None)
      | Some RuleChat =>
          if str_eqb (req_method req) (lit "POST") then
            let (ev', r) := chat_completions environ py requests_post POST (req_json req) in
            (ev ++ ev', Some r)
          else if str_eqb (req_method req) (lit "OPTIONS") then
            let (ev', r) := chat_completions environ py requests_post OPTIONS (req_json req) in
            (ev ++ ev', Some r)
          else (ev, None)
      | None => (ev, None)
      end
  end.

End Server.
Import Server.

(* ------------------------------------------------------------------ *)
(** ** Further vocabulary *)

Module Terms.

Definition is_object (v : json) : bool :=
  match v with
  | JObj _ => true
  | _ => false
  end.

(** The roles the loop acts on. *)
Definition relevant (msg : json) : bool :=
  eq_str (role_of msg) (lit "system") || is_turn (role_of msg).

(** The string texts of the system messages of a list, in order. *)
Fixpoint system_texts (msgs : list json) : list pystr :=
  match msgs with
  | [] => []
  | msg :: rest =>
      match msg with
      | JObj f =>
          if eq_str (role_of msg) (lit "system") then
            match get_default (lit "content") f (JStr (lit "")) with
            | JStr t => t :: system_texts rest
            | _ => system_texts rest
            end
          else system_texts rest
      | _ => system_texts rest
      end
  end.

(** [item] is an object of type [text]. *)
Definition is_text_item (item : json) : bool :=
  match item with
  | JObj f => eq_str (get_default (lit "type") f JNull) (lit "text")
  | _ => false
  end.

(** [item.get("text", "")] of an item that is an object. *)
Definition text_of (item : json) : json :=
  match item with
  | JObj f => get_default (lit "text") f (JStr (lit ""))
  | _ => JNull
  end.

(** The message content of a completion, [choices[0].message.content]. *)
Definition completion_content (b : json) : option json :=
  match field (lit "choices") b with
  | Some (JArr (choice :: _)) =>
      match field (lit "message") choice with
      | Some message => field (lit "content") message
      | None => None
      end
  | _ => None
  end.

End Terms.
Import Terms.

(* ------------------------------------------------------------------ *)
(** ** Basic facts *)

Arguments lit : simpl never.

(** Comparisons of two literals are decided by evaluation. *)
Ltac lit_eval :=
  repeat match goal with
  | |- context [eq_str (JStr (lit ?a)) (lit ?b)] =>
      let v := eval vm_compute in (eq_str (JStr (lit a)) (lit b)) in
      change (eq_str (JStr (lit a)) (lit b)) with v
  end.

Lemma str_eqb_refl (a : pystr) : str_eqb a a = true.
Proof.
  induction a as [|x a IH]; simpl; [reflexivity|].
  now rewrite N.eqb_refl, IH.
Qed.

Lemma str_eqb_eq (a b : pystr) : str_eqb a b = true <-> a = b.
Proof.
  split.
  - revert b; induction a as [|x a IH]; intros [|y b] H; simpl in H;
      try discriminate; [reflexivity|].
    apply andb_prop in H as [Hx Hab].
    apply N.eqb_eq in Hx; apply IH in Hab; congruence.
  - intros ->; apply str_eqb_refl.
Qed.

Lemma eq_str_true (v : json) (s : pystr) : eq_str v s = true <-> v = JStr s.
Proof.
  destruct v; simpl; try (split; [discriminate | congruence]).
  rewrite str_eqb_eq; split; congruence.
Qed.

Lemma posts_app (a b : list event) : posts (a ++ b) = posts a ++ posts b.
Proof.
  induction a as [|[l|r] a IH]; simpl; [reflexivity | exact IH | now rewrite IH].
Qed.

(* ------------------------------------------------------------------ *)
(** ** The route: which bodies give which status *)

Section Route.

Variable environ : list (pystr * pystr).
Variable py : runtime.
Variable requests_post : request -> result response.

(** An answer with status 200 is a completion. *)
Lemma chat_completions_200 (rq : result json) :
  status (snd (chat_completions environ py requests_post POST rq)) = 200%Z ->
  exists model content,
    snd (chat_completions environ py requests_post POST rq) =
      jsonify (completion model content).
Proof.
  unfold chat_completions, chat_completions_try, try_jsonify, lift, io_bind.
  destruct rq as [e|j]; simpl; [discriminate|].
  destruct j; simpl; try discriminate.
  destruct (call_bedrock_api _ _ _ _ _) as [ev v]; simpl.
  destruct (encoder_refuses py _); simpl; [discriminate|].
  intros _; eauto.
Qed.

End Route.

(* ------------------------------------------------------------------ *)
(** ** Properties of the route *)

(** C1 (as the code has it): a request whose body does not decode to a JSON
    object -- [request.json] raises, or gives a value that is no object --
    is answered with status 500 and the envelope [{"error": str(e)}], where
    [e] is the exception [request.json] raised, or the AttributeError of
    calling [get] on the value; no completion is built and nothing is
    printed or sent. *)
Theorem C1_body_without_object_gives_500
    (environ : list (pystr * pystr)) (py : runtime)
    (requests_post : request -> result response)
    (rq : result json) :
  (forall f, rq <> inr (JObj f)) ->
  chat_completions environ py requests_post POST rq =
    ([], {| status := 500;
            body :=
              JObj [(lit "error",
                     JStr (match rq with
                           | inl e => str_exn e
                           | inr j =>
                               lit "'" ++ type_name j
                                 ++ lit "' object has no attribute 'get'"
                           end))];
            set_headers := [] |}).
Proof.
  intros Hrq.
  unfold chat_completions, chat_completions_try, lift, io_bind.
  destruct rq as [e0|j]; [reflexivity|].
  destruct j; try reflexivity.
  now destruct (Hrq fields).
Qed.

Lemma C1_body_without_object_gives_500_witness :
  (forall f, @inl exn json Sample.bad_request <> inr (JObj f))
  /\ chat_completions (Sample.environ_with "aGk") Sample.lenient
       (Sample.vendor 200 (Sample.reply "hi")) POST (inl Sample.bad_request) =
       ([], {| status := 500;
               body := JObj [(lit "error", JStr (str_exn Sample.bad_request))];
               set_headers := [] |}).
Proof.
  split; [discriminate|].
  apply (C1_body_without_object_gives_500 (Sample.environ_with "aGk") Sample.lenient
           (Sample.vendor 200 (Sample.reply "hi")) (inl Sample.bad_request)).
  discriminate.
Defined.

(** C1 as stated fails: a body that is no JSON, and a body that is a JSON
    list, are answered with status 500 and an error envelope, not with a
    status-200 completion. *)
Lemma C1_counterexample :
  snd (chat_completions (Sample.environ_with "aGk") Sample.lenient
         (Sample.vendor 200 (Sample.reply "hi")) POST (inl Sample.bad_request)) =
    {| status := 500;
       body := JObj [(lit "error", JStr (str_exn Sample.bad_request))];
       set_headers := [] |}
  /\ snd (chat_completions (Sample.environ_with "aGk") Sample.lenient
            (Sample.vendor 200 (Sample.reply "hi")) POST (inr (JArr []))) =
       {| status := 500;
          body := JObj [(lit "error", JStr (lit "'list' object has no attribute 'get'"))];
          set_headers := [] |}.
Proof. split; vm_compute; reflexivity. Qed.

(** C7: with the credential empty or absent, a body that is a JSON object
    (whose completion the encoder takes) is answered with status 200 and a
    completion whose one choice has the assistant message content
    "Error: Server API Token is not configured."; the trace holds one
    printed line and no outbound call. *)
Theorem C7_missing_credential
    (environ : list (pystr * pystr)) (py : runtime)
    (requests_post : request -> result response)
    (fields : list (pystr * json)) :
  lookup (lit "BEARER_TOKEN") environ = None
  \/ lookup (lit "BEARER_TOKEN") environ = Some [] ->
  encoder_refuses py
    (completion (get_default (lit "model") fields (JStr (lit "claude-sonnet-4")))
       (JStr (lit "Error: Server API Token is not configured."))) = None ->
  chat_completions environ py requests_post POST (inr (JObj fields)) =
    ([EPrint (lit "CRITICAL ERROR: BEARER_TOKEN is missing. Check App Runner Configuration.")],
     {| status := 200;
        body :=
          JObj [(lit "id", JStr (lit "chatcmpl-bedrock"));
                (lit "object", JStr (lit "chat.completion"));
                (lit "created", JInt 1234567890);
                (lit "model",
                 get_default (lit "model") fields (JStr (lit "claude-sonnet-4")));
                (lit "choices",
                 JArr [JObj [(lit "index", JInt 0);
                             (lit "message",
                              JObj [(lit "role", JStr (lit "assistant"));
                                    (lit "content",
                                     JStr (lit "Error: Server API Token is not configured."))]);
                             (lit "finish_reason", JStr (lit "stop"))]]);
                (lit "usage",
                 JObj [(lit "prompt_tokens", JInt 10);
                       (lit "completion_tokens", JInt 20);
                       (lit "total_tokens", JInt 30)])];
        set_headers := [] |}).
Proof.
  intros Htok Henc.
  assert (BEARER_TOKEN environ = []) as Hempty.
  { unfold BEARER_TOKEN, get_default. now destruct Htok as [-> | ->]. }
  assert (forall messages model,
             call_bedrock_api environ py requests_post messages model =
               ([EPrint (lit "CRITICAL ERROR: BEARER_TOKEN is missing. Check App Runner Configuration.")],
                JStr (lit "Error: Server API Token is not configured."))) as Hcall.
  { intros messages model. unfold call_bedrock_api, call_bedrock_api_try.
    rewrite Hempty. reflexivity. }
  unfold chat_completions, chat_completions_try, lift, io_bind; cbn [py_get].
  rewrite Hcall. unfold try_jsonify. rewrite Henc. reflexivity.
Qed.

Lemma C7_missing_credential_witness :
  chat_completions [(lit "PORT", lit "8080")] Sample.lenient
    (Sample.vendor 200 (Sample.reply "hi")) POST
    (inr (JObj [(lit "messages", JArr [Sample.message "user" (JStr (lit "hi"))])])) =
    ([EPrint (lit "CRITICAL ERROR: BEARER_TOKEN is missing. Check App Runner Configuration.")],
     {| status := 200;
        body :=
          JObj [(lit "id", JStr (lit "chatcmpl-bedrock"));
                (lit "object", JStr (lit "chat.completion"));
                (lit "created", JInt 1234567890);
                (lit "model", JStr (lit "claude-sonnet-4"));
                (lit "choices",
                 JArr [JObj [(lit "index", JInt 0);
                             (lit "message",
                              JObj [(lit "role", JStr (lit "assistant"));
                                    (lit "content",
                                     JStr (lit "Error: Server API Token is not configured."))]);
                             (lit "finish_reason", JStr (lit "stop"))]]);
                (lit "usage",
                 JObj [(lit "prompt_tokens", JInt 10);
                       (lit "completion_tokens", JInt 20);
                       (lit "total_tokens", JInt 30)])];
        set_headers := [] |}).
Proof.
  apply (C7_missing_credential [(lit "PORT", lit "8080")] Sample.lenient
           (Sample.vendor 200 (Sample.reply "hi"))
           [(lit "messages", JArr [Sample.message "user" (JStr (lit "hi"))])]).
  - left; reflexivity.
  - reflexivity.
Defined.

(** C10: every answer of the POST route with status 200 carries the fixed
    id, object and created fields, exactly one choice with index 0, an
    assistant message and finish_reason "stop", and the usage counts 10, 20
    and 30; only the model and the message content vary. *)
Theorem C10_completion_shape
    (environ : list (pystr * pystr)) (py : runtime) (requests_post : request -> result response)
    (rq : result json) :
  status (snd (chat_completions environ py requests_post POST rq)) = 200%Z ->
  exists model content,
    body (snd (chat_completions environ py requests_post POST rq)) =
      JObj [(lit "id", JStr (lit "chatcmpl-bedrock"));
            (lit "object", JStr (lit "chat.completion"));
            (lit "created", JInt 1234567890);
            (lit "model", model);
            (lit "choices",
             JArr [JObj [(lit "index", JInt 0);
                         (lit "message",
                          JObj [(lit "role", JStr (lit "assistant"));
                                (lit "content", content)]);
                         (lit "finish_reason", JStr (lit "stop"))]]);
            (lit "usage",
             JObj [(lit "prompt_tokens", JInt 10);
                   (lit "completion_tokens", JInt 20);
                   (lit "total_tokens", JInt 30)])].
Proof.
  intros H200.
  destruct (chat_completions_200 environ py requests_post rq H200) as (model & content & ->).
  exists model, content. reflexivity.
Qed.

Lemma C10_completion_shape_witness :
  status (snd (chat_completions (Sample.environ_with "aGk") Sample.lenient
                 (Sample.vendor 200 (Sample.reply "hi")) POST
                 (inr (JObj [(lit "messages", JArr [Sample.message "user" (JStr (lit "hi"))])]))))
    = 200%Z
  /\ exists model content,
       body (snd (chat_completions (Sample.environ_with "aGk") Sample.lenient
                    (Sample.vendor 200 (Sample.reply "hi")) POST
                    (inr (JObj [(lit "messages", JArr [Sample.message "user" (JStr (lit "hi"))])])))) =
         JObj [(lit "id", JStr (lit "chatcmpl-bedrock"));
               (lit "object", JStr (lit "chat.completion"));
               (lit "created", JInt 1234567890);
               (lit "model", model);
               (lit "choices",
                JArr [JObj [(lit "index", JInt 0);
                            (lit "message",
                             JObj [(lit "role", JStr (lit "assistant"));
                                   (lit "content", content)]);
                            (lit "finish_reason", JStr (lit "stop"))]]);
               (lit "usage",
                JObj [(lit "prompt_tokens", JInt 10);
                      (lit "completion_tokens", JInt 20);
                      (lit "total_tokens", JInt 30)])].
Proof.
  split; [vm_compute; reflexivity|].
  apply (C10_completion_shape (Sample.environ_with "aGk") Sample.lenient
           (Sample.vendor 200 (Sample.reply "hi"))
           (inr (JObj [(lit "messages", JArr [Sample.message "user" (JStr (lit "hi"))])]))).
  vm_compute; reflexivity.
Defined.

(* ------------------------------------------------------------------ *)
(** ** Facts on strings *)

Lemma lstrip_app_space (s : pystr) (c : N) :
  isspace c = true ->
  lstrip (s ++ [c]) = match lstrip s with [] => [] | _ :: _ => lstrip s ++ [c] end.
Proof.
  intros Hc. induction s as [|x s IH]; simpl.
  - now rewrite Hc.
  - destruct (isspace x); [exact IH | reflexivity].
Qed.

Lemma rstrip_app_space (s : pystr) (c : N) :
  isspace c = true -> rstrip (s ++ [c]) = rstrip s.
Proof.
  intros Hc. unfold rstrip. rewrite rev_app_distr; simpl. now rewrite Hc.
Qed.

(** A trailing white-space character does not change [strip]. *)
Lemma strip_app_space (s : pystr) (c : N) :
  isspace c = true -> strip (s ++ [c]) = strip s.
Proof.
  intros Hc. unfold strip. rewrite (lstrip_app_space s c Hc).
  destruct (lstrip s) as [|x l] eqn:E; [reflexivity|].
  now apply rstrip_app_space.
Qed.

(** The lines accumulated by the loop, one per system message. *)
Lemma lines_join (texts : list pystr) :
  texts <> [] ->
  List.concat (map (fun t => t ++ newline) texts) = join newline texts ++ newline.
Proof.
  induction texts as [|t rest IH]; [congruence|intros _].
  destruct rest as [|t' rest].
  - simpl. now rewrite app_nil_r.
  - change (List.concat (map (fun t => t ++ newline) (t :: t' :: rest)))
      with ((t ++ newline) ++ List.concat (map (fun t => t ++ newline) (t' :: rest))).
    rewrite IH by discriminate.
    change (join newline (t :: t' :: rest))
      with (t ++ newline ++ join newline (t' :: rest)).
    now rewrite <- !app_assoc.
Qed.

Lemma strip_lines (texts : list pystr) :
  strip (List.concat (map (fun t => t ++ newline) texts)) = strip (join newline texts).
Proof.
  destruct texts as [|t rest]; [reflexivity|].
  rewrite lines_join by discriminate.
  now apply strip_app_space.
Qed.

Lemma splitn_nonempty (sep : N) (n : nat) (s : pystr) : splitn sep n s <> [].
Proof.
  revert n; induction s as [|c t IH]; intros n; simpl; [discriminate|].
  destruct (N.eqb c sep).
  - destruct n; discriminate.
  - destruct (splitn sep n t); discriminate.
Qed.

Lemma splitn_zero (sep : N) (s : pystr) : splitn sep 0 s = [s].
Proof.
  induction s as [|c t IH]; simpl; [reflexivity|].
  destruct (N.eqb c sep); [reflexivity | now rewrite IH].
Qed.

(** Cutting [a ++ sep :: b] at a separator that [a] does not hold. *)
Lemma splitn_app (sep : N) (n : nat) (a b : pystr) :
  ~ In sep a ->
  splitn sep (S n) (a ++ sep :: b) = a :: splitn sep n b.
Proof.
  intros Ha. induction a as [|c a IH]; simpl.
  - now rewrite N.eqb_refl.
  - destruct (N.eqb_spec c sep) as [->|_]; [now destruct Ha; left|].
    rewrite IH; [reflexivity|]. intros Hin; apply Ha; now right.
Qed.

(** Without a separator nothing is cut. *)
Lemma splitn_none (sep : N) (n : nat) (a : pystr) :
  ~ In sep a -> splitn sep n a = [a].
Proof.
  intros Ha. induction a as [|c a IH]; simpl; [reflexivity|].
  destruct (N.eqb_spec c sep) as [->|_]; [now destruct Ha; left|].
  rewrite IH; [reflexivity|]. intros Hin; apply Ha; now right.
Qed.

Lemma has_comma_In (s : pystr) : has_comma s = true <-> In 44%N s.
Proof.
  unfold has_comma. rewrite existsb_exists. split.
  - intros (x & Hx & E). apply N.eqb_eq in E. now subst.
  - intros H. exists 44%N. split; [exact H | reflexivity].
Qed.

(** A string with a comma is cut in two at its first comma. *)
Lemma split_once_comma (s : pystr) :
  has_comma s = true ->
  exists header data,
    s = header ++ 44%N :: data /\ ~ In 44%N header
    /\ splitn 44 1 s = [header; data].
Proof.
  intros H.
  assert (exists header data, s = header ++ 44%N :: data /\ ~ In 44%N header)
    as (h & d & -> & Hh).
  { apply has_comma_In in H.
    induction s as [|c t IH]; [now destruct H|].
    destruct (N.eq_dec c 44) as [->|Hc].
    - exists [], t. split; [reflexivity | now intros []].
    - destruct H as [E|H]; [congruence|].
      destruct (IH H) as (h & d & -> & Hh).
      exists (c :: h), d. split; [reflexivity|].
      intros [E|Hin]; [congruence | now apply Hh]. }
  exists h, d. repeat split; [exact Hh|].
  rewrite splitn_app by exact Hh. now rewrite splitn_zero.
Qed.

Lemma split_once_no_comma (s : pystr) :
  has_comma s = false -> splitn 44 1 s = [s].
Proof.
  intros H. apply splitn_none. rewrite <- has_comma_In. now rewrite H.
Qed.

(* ------------------------------------------------------------------ *)
(** ** The translation loop *)

(** Inversion of a [bind] that succeeded. *)
Lemma bind_inr {A B} (m : result A) (k : A -> result B) (b : B) :
  bind m k = inr b -> exists a, m = inr a /\ k a = inr b.
Proof. destruct m as [e|a]; simpl; [discriminate | eauto]. Qed.

Lemma role_of_claude_message (r c : json) : role_of (claude_message r c) = r.
Proof. reflexivity. Qed.

Lemma is_turn_not_system (r : json) :
  is_turn r = true -> eq_str r (lit "system") = false.
Proof.
  unfold is_turn. intros H. apply orb_prop in H as [H|H];
    apply eq_str_true in H; subst r; reflexivity.
Qed.

Lemma field_messages (sp : pystr) (cms : list json) :
  field (lit "messages") (bedrock_payload sp cms) = Some (JArr cms).
Proof. reflexivity. Qed.

Lemma field_system (sp : pystr) (cms : list json) :
  field (lit "system") (bedrock_payload sp cms) =
    match strip sp with
    | [] => None
    | _ :: _ => Some (JStr (strip sp))
    end.
Proof. unfold bedrock_payload. destruct (strip sp); reflexivity. Qed.

(** A system message only adds its line to the prompt. *)
Lemma translate_message_system (sp : pystr) (cms : list json) (msg : json) (t : pystr) :
  system_message msg t ->
  translate_message (sp, cms) msg = inr (sp ++ t ++ newline, cms).
Proof.
  intros (f & -> & Hrole & Hcontent).
  unfold translate_message. cbn [bind py_get].
  unfold get_default at 1. rewrite Hrole. lit_eval.
  change (lit "") with (@nil N). rewrite Hcontent. reflexivity.
Qed.

(** What one pass of the loop does to [claude_messages]: a message with
    role [user] or [assistant] appends its entry, any other message appends
    nothing. *)
Lemma translate_message_entry (sp sp' : pystr) (cms cms' : list json) (msg : json) :
  translate_message (sp, cms) msg = inr (sp', cms') ->
  if is_turn (role_of msg)
  then exists out, cms' = cms ++ [out] /\ entry_of msg out
  else cms' = cms.
Proof.
  destruct msg as [| | | | |items|f]; try discriminate.
  unfold entry_of, translate_message, role_of. cbn [bind py_get].
  set (r := get_default (lit "role") f JNull).
  destruct (eq_str r (lit "system")) eqn:Hsys.
  - apply eq_str_true in Hsys. rewrite Hsys. lit_eval.
    change (is_turn (JStr (lit "system"))) with false.
    intros H. apply bind_inr in H as (line & _ & [= _ <-]). reflexivity.
  - fold (is_turn r). destruct (is_turn r).
    + destruct (get_default (lit "content") f (JStr (lit ""))) as [| | | | |items|g] eqn:Hc;
        try (intros [= _ <-]; eexists; split; [reflexivity|];
             exists f; eexists; rewrite Hc; repeat split; reflexivity).
      intros H. apply bind_inr in H as (blocks & Hblocks & [= _ <-]).
      eexists; split; [reflexivity|].
      exists f, (JArr blocks). rewrite Hc. repeat split. eauto.
    + now intros [= _ <-].
Qed.

Lemma entry_of_role (msg out : json) : entry_of msg out -> role_of out = role_of msg.
Proof. intros (f & c & _ & -> & _). apply role_of_claude_message. Qed.

(** The loop appends the entries of the user and assistant messages, in
    order. *)
Lemma translate_messages_entries (msgs : list json) :
  forall sp cms sp' cms',
    translate_messages msgs (sp, cms) = inr (sp', cms') ->
    exists new,
      cms' = cms ++ new
      /\ Forall2 entry_of (filter (fun m => is_turn (role_of m)) msgs) new.
Proof.
  induction msgs as [|msg rest IH]; intros sp cms sp' cms';
    cbn [translate_messages filter].
  - intros [= _ <-]. exists []. split; [now rewrite app_nil_r | constructor].
  - intros H. apply bind_inr in H as ([sp1 cms1] & Hmsg & Hrest).
    apply IH in Hrest as (new & -> & Hnew).
    apply translate_message_entry in Hmsg.
    destruct (is_turn (role_of msg)).
    + destruct Hmsg as (out & -> & Hout).
      exists (out :: new). split; [now rewrite <- app_assoc | now constructor].
    + subst cms1. now exists new.
Qed.

Lemma entries_roles (msgs outs : list json) :
  Forall2 entry_of (filter (fun m => is_turn (role_of m)) msgs) outs ->
  map role_of outs = filter is_turn (map role_of msgs).
Proof.
  revert outs; induction msgs as [|msg rest IH]; intros outs; cbn [filter map].
  - now inversion 1.
  - destruct (is_turn (role_of msg)); [|apply IH].
    inversion 1 as [|m out ms os Hout Hrest]; subst. cbn [map].
    now rewrite (entry_of_role msg out Hout), (IH os Hrest).
Qed.

Lemma translate_messages_system (msgs : list json) (texts : list pystr) :
  Forall2 system_message msgs texts ->
  forall sp cms,
    translate_messages msgs (sp, cms) =
      inr (sp ++ List.concat (map (fun t => t ++ newline) texts), cms).
Proof.
  induction 1 as [|msg t msgs texts Hmsg _ IH]; intros sp cms;
    cbn [translate_messages map List.concat].
  - now rewrite app_nil_r.
  - rewrite (translate_message_system sp cms msg t Hmsg). cbn [bind].
    rewrite IH. now rewrite <- !app_assoc.
Qed.

(* ------------------------------------------------------------------ *)
(** ** Properties of the translation *)

(** C3 (as the code has it): a message with role user or assistant whose
    content is a string [s] is forwarded with that role and with the
    string [s] itself as its content; the string is not wrapped into a
    list of blocks. *)
Theorem C3_string_content_is_forwarded
    (sp : pystr) (cms : list json) (f : list (pystr * json)) (role s : pystr) :
  lookup (lit "role") f = Some (JStr role) ->
  role = lit "user" \/ role = lit "assistant" ->
  lookup (lit "content") f = Some (JStr s) ->
  translate_message (sp, cms) (JObj f) =
    inr (sp, cms ++ [JObj [(lit "role", JStr role); (lit "content", JStr s)]]).
Proof.
  intros Hrole Hturn Hcontent.
  unfold translate_message. cbn [bind py_get].
  unfold get_default. rewrite Hrole, Hcontent.
  destruct Hturn as [-> | ->]; lit_eval; reflexivity.
Qed.

Lemma C3_string_content_is_forwarded_witness :
  translate_message (lit "", []) (Sample.message "user" (JStr (lit "hi"))) =
    inr (lit "", [] ++ [JObj [(lit "role", JStr (lit "user"));
                             (lit "content", JStr (lit "hi"))]]).
Proof.
  apply (C3_string_content_is_forwarded (lit "") []
           [(lit "role", JStr (lit "user")); (lit "content", JStr (lit "hi"))]
           (lit "user") (lit "hi")).
  - reflexivity.
  - left; reflexivity.
  - reflexivity.
Defined.

(** C3 as stated fails: the user message "hi" is translated to an entry
    whose content is the string "hi", which is not a list holding one Text
    block. *)
Lemma C3_counterexample :
  translate (JArr [Sample.message "user" (JStr (lit "hi"))]) =
    inr (bedrock_payload (lit "")
           [claude_message (JStr (lit "user")) (JStr (lit "hi"))])
  /\ claude_message (JStr (lit "user")) (JStr (lit "hi"))
     <> claude_message (JStr (lit "user")) (JArr [text_block (JStr (lit "hi"))]).
Proof. split; [vm_compute; reflexivity | discriminate]. Qed.

(** C6 (as the code has it): for a list of system messages with string
    texts, the translated messages sequence is empty, and the system
    prompt is the trimmed, newline-joined concatenation of the texts in
    order; the payload carries it exactly when it is not empty. *)
Theorem C6_system_only (msgs : list json) (texts : list pystr) :
  Forall2 system_message msgs texts ->
  exists p,
    translate (JArr msgs) = inr p
    /\ field (lit "messages") p = Some (JArr [])
    /\ field (lit "system") p =
         match strip (join newline texts) with
         | [] => None
         | _ :: _ => Some (JStr (strip (join newline texts)))
         end.
Proof.
  intros Hsys.
  unfold translate. cbn [bind py_iter].
  rewrite (translate_messages_system msgs texts Hsys). cbn [bind fst snd].
  eexists; split; [reflexivity|]. split.
  - apply field_messages.
  - rewrite field_system. change (lit "" ++ ?x) with x.
    now rewrite strip_lines.
Qed.

Lemma C6_system_only_witness :
  Forall2 system_message
    [Sample.message "system" (JStr (lit "be brief")); Sample.message "system" (JStr (lit " and kind "))]
    [lit "be brief"; lit " and kind "]
  /\ exists p,
       translate (JArr [Sample.message "system" (JStr (lit "be brief"));
                        Sample.message "system" (JStr (lit " and kind "))]) = inr p
       /\ field (lit "messages") p = Some (JArr [])
       /\ field (lit "system") p =
            match strip (join newline [lit "be brief"; lit " and kind "]) with
            | [] => None
            | _ :: _ => Some (JStr (strip (join newline [lit "be brief"; lit " and kind "])))
            end.
Proof.
  assert (Forall2 system_message
            [Sample.message "system" (JStr (lit "be brief"));
             Sample.message "system" (JStr (lit " and kind "))]
            [lit "be brief"; lit " and kind "]) as H.
  { repeat constructor; eexists; repeat split; reflexivity. }
  split; [exact H|].
  exact (C6_system_only _ _ H).
Defined.

(** C6 as stated fails: for the empty list, and for one system message
    whose text is a blank, the system prompt is empty and the payload has
    no system entry. *)
Lemma C6_counterexample :
  translate (JArr []) = inr (bedrock_payload (lit "") [])
  /\ field (lit "system") (bedrock_payload (lit "") []) = None
  /\ translate (JArr [Sample.message "system" (JStr (lit " "))]) =
       inr (bedrock_payload (lit " " ++ newline) [])
  /\ field (lit "system") (bedrock_payload (lit " " ++ newline) []) = None.
Proof. repeat split; vm_compute; reflexivity. Qed.

(* ------------------------------------------------------------------ *)
(** ** Content items *)

Lemma startswith_app (p s : pystr) :
  startswith p s = true -> exists t, s = p ++ t.
Proof.
  revert s; induction p as [|x p IH]; intros s H; simpl in *.
  - now exists s.
  - destruct s as [|y s]; [discriminate|].
    apply andb_prop in H as [Hx Hp]. apply N.eqb_eq in Hx. subst y.
    destruct (IH s Hp) as (t & ->). now exists t.
Qed.

Lemma startswith_prefix (p t : pystr) : startswith p (p ++ t) = true.
Proof.
  induction p as [|x p IH]; simpl; [reflexivity|].
  now rewrite N.eqb_refl, IH.
Qed.

(** A prefix without a comma lies before the first comma. *)
Lemma startswith_before (c : N) (p h d : pystr) :
  ~ In c p -> startswith p (h ++ c :: d) = true -> startswith p h = true.
Proof.
  revert h; induction p as [|x p IH]; intros h Hp H; [reflexivity|].
  destruct h as [|y h]; simpl in H |- *.
  - apply andb_prop in H as [Hx _]. apply N.eqb_eq in Hx.
    destruct Hp. now left.
  - apply andb_prop in H as [Hx H]. rewrite Hx. simpl.
    apply IH; [|exact H]. intros Hin; apply Hp; now right.
Qed.

(** The first piece of a cut starts with any separator-free prefix. *)
Lemma hd_splitn_app (sep : N) (n : nat) (a b : pystr) :
  ~ In sep a ->
  hd [] (splitn sep n (a ++ b)) = a ++ hd [] (splitn sep n b).
Proof.
  intros Ha. induction a as [|c a IH]; [reflexivity|].
  cbn [app splitn].
  destruct (N.eqb_spec c sep) as [->|_]; [now destruct Ha; left|].
  assert (~ In sep a) as Ha' by (intros Hin; apply Ha; now right).
  specialize (IH Ha').
  destruct (splitn sep n (a ++ b)) as [|p ps] eqn:E;
    [now apply splitn_nonempty in E|].
  cbn [hd] in *. now rewrite IH.
Qed.

Lemma list_item_0 (l : list pystr) : l <> [] -> list_item l 0 = inr (hd [] l).
Proof. destruct l; [congruence | reflexivity]. Qed.

(** The mime type read off a header [data:<mime><params>]: the text after
    the first colon, up to the next colon or semicolon. *)
Lemma header_mime (mime params : pystr) :
  free_of [58; 59]%N mime ->
  params = [] \/ (exists c q, params = c :: q /\ (c = 58 \/ c = 59)%N) ->
  bind (list_item (split 58 (lit "data:" ++ mime ++ params)) 1)
       (fun after_colon => list_item (split 59 after_colon) 0) = inr mime.
Proof.
  intros Hfree Hparams.
  assert (~ In 58%N mime) as H58 by (intros H; apply (Hfree _ H); now left).
  assert (~ In 59%N mime) as H59 by (intros H; apply (Hfree _ H); right; now left).
  unfold split.
  change (lit "data:" ++ mime ++ params)
    with (lit "data" ++ 58%N :: (mime ++ params)).
  rewrite length_app. cbn [List.length lit]. rewrite Nat.add_comm. cbn [Nat.add].
  change (List.length (lit "data")) with 4%nat.
  rewrite Nat.add_comm. cbn [Nat.add].
  rewrite splitn_app by (vm_compute; intuition discriminate).
  set (n := S (S (S (S (List.length (mime ++ params)))))).
  destruct (splitn 58 n (mime ++ params)) as [|piece more] eqn:E;
    [now apply splitn_nonempty in E|].
  cbn [list_item nth_error bind].
  assert (piece = mime ++ hd [] (splitn 58 n params)) as ->.
  { change piece with (hd [] (piece :: more)). rewrite <- E.
    now apply hd_splitn_app. }
  rewrite list_item_0 by apply splitn_nonempty. f_equal.
  destruct Hparams as [->|(c & q & -> & [->| ->])].
  - cbn [splitn hd]. rewrite app_nil_r.
    now rewrite splitn_none by exact H59.
  - subst n. cbn [splitn N.eqb Pos.eqb hd]. rewrite app_nil_r.
    now rewrite splitn_none by exact H59.
  - subst n. cbn [splitn N.eqb Pos.eqb].
    destruct (splitn 58 _ q) as [|p ps] eqn:E';
      [now apply splitn_nonempty in E'|].
    cbn [hd]. rewrite length_app. cbn [List.length].
    rewrite Nat.add_comm. cbn [Nat.add].
    now rewrite splitn_app by exact H59.
Qed.

(** What [translate_item] computes for an item of type [image_url] whose
    [url] is the string [u]. *)
Lemma translate_item_image (f g : list (pystr * json)) (u : pystr) :
  get_default (lit "type") f JNull = JStr (lit "image_url") ->
  get_default (lit "image_url") f (JObj []) = JObj g ->
  get_default (lit "url") g (JStr (lit "")) = JStr u ->
  translate_item (JObj f) =
    if startswith (lit "data:image/") u then
      bind (unpack2 (splitn 44 1 u)) (fun hd =>
        bind (bind (list_item (split 58 (fst hd)) 1)
                   (fun after_colon => list_item (split 59 after_colon) 0))
             (fun mime_type => inr [image_block mime_type (snd hd)]))
    else inr [].
Proof.
  intros Htype Hiu Hurl.
  unfold translate_item. cbn [bind py_get].
  rewrite Htype. lit_eval. rewrite Hiu. cbn [bind py_get]. rewrite Hurl.
  cbn [bind py_startswith py_split_once].
  destruct (startswith (lit "data:image/") u); [|reflexivity].
  destruct (unpack2 (splitn 44 1 u)) as [e|[header data]]; [reflexivity|].
  cbn [bind fst snd].
  destruct (list_item (split 58 header) 1) as [e|after_colon]; [reflexivity|].
  cbn [bind]. reflexivity.
Qed.

(** A data URI with a comma always gives its block. *)
Lemma data_uri_block (u : pystr) :
  startswith (lit "data:image/") u = true ->
  has_comma u = true ->
  exists mime data,
    bind (unpack2 (splitn 44 1 u)) (fun hd =>
      bind (bind (list_item (split 58 (fst hd)) 1)
                 (fun after_colon => list_item (split 59 after_colon) 0))
           (fun mime_type => inr [image_block mime_type (snd hd)]))
    = inr [image_block mime data].
Proof.
  intros Hdata Hcomma.
  destruct (split_once_comma u Hcomma) as (h & d & -> & Hh & ->).
  cbn [unpack2 bind fst snd].
  apply startswith_before in Hdata; [|vm_compute; intuition discriminate].
  apply startswith_app in Hdata as (t & ->).
  unfold split.
  change (lit "data:image/" ++ t) with (lit "data" ++ 58%N :: (lit "image/" ++ t)).
  rewrite length_app. cbn [List.length]. rewrite Nat.add_comm. cbn [Nat.add].
  rewrite splitn_app by (vm_compute; intuition discriminate).
  destruct (splitn 58 _ (lit "image/" ++ t)) as [|piece more] eqn:E;
    [now apply splitn_nonempty in E|].
  cbn [list_item nth_error bind].
  rewrite list_item_0 by apply splitn_nonempty. cbn [bind].
  eauto.
Qed.

(** A data URI without a comma cannot be unpacked. *)
Lemma data_uri_without_comma (u : pystr) :
  has_comma u = false ->
  bind (unpack2 (splitn 44 1 u)) (fun hd =>
    bind (bind (list_item (split 58 (fst hd)) 1)
               (fun after_colon => list_item (split 59 after_colon) 0))
         (fun mime_type => inr [image_block mime_type (snd hd)]))
  = inl (ValueError (lit "not enough values to unpack (expected 2, got 1)")).
Proof. intros H. rewrite (split_once_no_comma u H). reflexivity. Qed.

(** The blocks of an item of type image_url, by the shape of its URL. *)
Lemma image_item_blocks (f g : list (pystr * json)) (u : pystr) :
  get_default (lit "type") f JNull = JStr (lit "image_url") ->
  get_default (lit "image_url") f (JObj []) = JObj g ->
  get_default (lit "url") g (JStr (lit "")) = JStr u ->
  (has_comma u = true ->
   ((exists mime data, translate_item (JObj f) = inr [image_block mime data])
    <-> startswith (lit "data:image/") u = true))
  /\ (startswith (lit "data:image/") u = false -> translate_item (JObj f) = inr [])
  /\ (forall mime params data,
        u = lit "data:" ++ mime ++ params ++ 44%N :: data ->
        startswith (lit "image/") mime = true ->
        free_of [58; 59; 44]%N mime ->
        params = [] \/ (exists c q, params = c :: q /\ (c = 58 \/ c = 59)%N) ->
        ~ In 44%N params ->
        translate_item (JObj f) = inr [image_block mime data])
  /\ translate_item (Sample.image_item "data:image/png;base64,QUJD") =
       inr [image_block (lit "image/png") (lit "QUJD")].
Proof.
  intros Htype Hiu Hurl.
  rewrite (translate_item_image f g u Htype Hiu Hurl).
  split; [intros Hc; split|split; [|split]].
  - intros (mime & data & H).
    destruct (startswith (lit "data:image/") u); [reflexivity | discriminate].
  - intros Hs. rewrite Hs. now apply data_uri_block.
  - now intros ->.
  - intros mime params data -> Himage Hfree Hparams Hcomma.
    apply startswith_app in Himage as (t & ->).
    change (lit "data:" ++ (lit "image/" ++ t) ++ params ++ 44%N :: data)
      with (lit "data:image/" ++ t ++ params ++ 44%N :: data).
    rewrite startswith_prefix.
    change (lit "data:image/" ++ t ++ params ++ 44%N :: data)
      with (lit "data:" ++ (lit "image/" ++ t) ++ params ++ 44%N :: data).
    replace (lit "data:" ++ (lit "image/" ++ t) ++ params ++ 44%N :: data)
      with ((lit "data:" ++ (lit "image/" ++ t) ++ params) ++ 44%N :: data)
      by now rewrite <- !app_assoc.
    rewrite splitn_app, splitn_zero.
    + cbn [unpack2 bind fst snd].
      rewrite header_mime; [reflexivity | | exact Hparams].
      intros c Hc Hin. apply (Hfree c Hc).
      destruct Hin as [<-|[<-|[]]]; [now left | right; now left].
    + intros Hin. apply in_app_or in Hin as [Hin|Hin];
        [revert Hin; vm_compute; intuition discriminate|].
      apply in_app_or in Hin as [Hin|Hin]; [|now apply Hcomma].
      apply (Hfree _ Hin). right; right; now left.
  - vm_compute; reflexivity.
Qed.

(** C8 (as the code has it): for an item of type image_url whose URL is a
    string that holds a comma, an Image block is emitted exactly when the
    URL begins with data:image/; a URL that does not begin with
    data:image/ gives no block and no error; the block of
    [data:<mime><params>,<payload>] has the mime type between the data:
    marker and the first colon or semicolon after it, and the payload
    after the first comma; data:image/png;base64,QUJD gives image/png and
    QUJD. *)
Theorem C8_image_item (f g : list (pystr * json)) (u : pystr) :
  get_default (lit "type") f JNull = JStr (lit "image_url") ->
  get_default (lit "image_url") f (JObj []) = JObj g ->
  get_default (lit "url") g (JStr (lit "")) = JStr u ->
  (has_comma u = true ->
   ((exists mime data,
       translate_item (JObj f) =
         inr [JObj [(lit "type", JStr (lit "image"));
                   (lit "source",
                    JObj [(lit "type", JStr (lit "base64"));
                          (lit "media_type", JStr mime);
                          (lit "data", JStr data)])]])
    <-> startswith (lit "data:image/") u = true))
  /\ (startswith (lit "data:image/") u = false -> translate_item (JObj f) = inr [])
  /\ (forall mime params data,
        u = lit "data:" ++ mime ++ params ++ 44%N :: data ->
        startswith (lit "image/") mime = true ->
        free_of [58; 59; 44]%N mime ->
        params = [] \/ (exists c q, params = c :: q /\ (c = 58 \/ c = 59)%N) ->
        ~ In 44%N params ->
        translate_item (JObj f) =
          inr [JObj [(lit "type", JStr (lit "image"));
                   (lit "source",
                    JObj [(lit "type", JStr (lit "base64"));
                          (lit "media_type", JStr mime);
                          (lit "data", JStr data)])]])
  /\ translate_item
       (JObj [(lit "type", JStr (lit "image_url"));
              (lit "image_url",
               JObj [(lit "url", JStr (lit "data:image/png;base64,QUJD"))])]) =
       inr [JObj [(lit "type", JStr (lit "image"));
                   (lit "source",
                    JObj [(lit "type", JStr (lit "base64"));
                          (lit "media_type", JStr (lit "image/png"));
                          (lit "data", JStr (lit "QUJD"))])]].
Proof. exact (image_item_blocks f g u). Qed.

Lemma free_of_check (seps : list N) (s : pystr) :
  forallb (fun c => negb (existsb (N.eqb c) seps)) s = true -> free_of seps s.
Proof.
  intros H c Hc Hsep.
  rewrite forallb_forall in H. specialize (H c Hc).
  apply negb_true_iff in H.
  assert (existsb (N.eqb c) seps = true) as E; [|congruence].
  apply existsb_exists. exists c. split; [exact Hsep | apply N.eqb_refl].
Qed.

Lemma C8_image_item_witness :
  translate_item (Sample.image_item "https://example.com/cat.png") = inr []
  /\ translate_item
       (Sample.image_item "data:image/svg+xml;charset=utf-8;base64,PHN2Zz4=") =
       inr [JObj [(lit "type", JStr (lit "image"));
                   (lit "source",
                    JObj [(lit "type", JStr (lit "base64"));
                          (lit "media_type", JStr (lit "image/svg+xml"));
                          (lit "data", JStr (lit "PHN2Zz4="))])]].
Proof.
  split.
  - apply (C8_image_item
             [(lit "type", JStr (lit "image_url"));
              (lit "image_url", JObj [(lit "url", JStr (lit "https://example.com/cat.png"))])]
             [(lit "url", JStr (lit "https://example.com/cat.png"))]
             (lit "https://example.com/cat.png")
             eq_refl eq_refl eq_refl).
    reflexivity.
  - apply (C8_image_item
             [(lit "type", JStr (lit "image_url"));
              (lit "image_url",
               JObj [(lit "url", JStr (lit "data:image/svg+xml;charset=utf-8;base64,PHN2Zz4="))])]
             [(lit "url", JStr (lit "data:image/svg+xml;charset=utf-8;base64,PHN2Zz4="))]
             (lit "data:image/svg+xml;charset=utf-8;base64,PHN2Zz4=")
             eq_refl eq_refl eq_refl)
      with (params := lit ";charset=utf-8;base64").
    + reflexivity.
    + reflexivity.
    + apply free_of_check. reflexivity.
    + right. exists 59%N, (lit "charset=utf-8;base64"). split; [reflexivity | now right].
    + vm_compute. intuition discriminate.
Defined.

(** C8 as stated fails: a URL that begins with data:image/ and holds no
    comma gives no Image block; the item raises instead. *)
Lemma C8_counterexample :
  startswith (lit "data:image/") (lit "data:image/png") = true
  /\ translate_item (Sample.image_item "data:image/png") =
       inl (ValueError (lit "not enough values to unpack (expected 2, got 1)")).
Proof. split; vm_compute; reflexivity. Qed.

(* ------------------------------------------------------------------ *)
(** ** When the translation raises *)

Lemma translate_item_ok (item : json) :
  succeeds (translate_item item) = well_formed_item item.
Proof.
  destruct item as [| | | | |items|f]; try reflexivity.
  unfold well_formed_item.
  destruct (eq_str (get_default (lit "type") f JNull) (lit "text")) eqn:Htext.
  { unfold translate_item. cbn [bind py_get]. now rewrite Htext. }
  destruct (eq_str (get_default (lit "type") f JNull) (lit "image_url")) eqn:Himg.
  2:{ unfold translate_item. cbn [bind py_get]. now rewrite Htext, Himg. }
  apply eq_str_true in Himg.
  destruct (get_default (lit "image_url") f (JObj [])) as [| | | | |items|g] eqn:Hiu;
    try (unfold translate_item; cbn [bind py_get];
         rewrite Himg; lit_eval; rewrite Hiu; reflexivity).
  change (@nil N) with (lit "").
  destruct (get_default (lit "url") g (JStr (lit ""))) as [| | | |u| |] eqn:Hurl;
    try (unfold translate_item; cbn [bind py_get];
         rewrite Himg; lit_eval; rewrite Hiu; cbn [bind py_get];
         rewrite Hurl; reflexivity).
  rewrite (translate_item_image f g u Himg Hiu Hurl).
  destruct (startswith (lit "data:image/") u) eqn:Hdata; [|reflexivity].
  destruct (has_comma u) eqn:Hcomma.
  - destruct (data_uri_block u Hdata Hcomma) as (mime & data & ->). reflexivity.
  - now rewrite (data_uri_without_comma u Hcomma).
Qed.

Lemma translate_content_ok (items : list json) :
  forall acc, succeeds (translate_content items acc) = forallb well_formed_item items.
Proof.
  induction items as [|item rest IH]; intros acc; cbn [translate_content forallb];
    [reflexivity|].
  rewrite <- translate_item_ok.
  destruct (translate_item item) as [e|blocks]; cbn [bind succeeds andb];
    [reflexivity | apply IH].
Qed.

Lemma translate_message_ok (sp : pystr) (cms : list json) (msg : json) :
  succeeds (translate_message (sp, cms) msg) = well_formed_message msg.
Proof.
  destruct msg as [| | | | |items|f]; try reflexivity.
  unfold translate_message, well_formed_message, role_of. cbn [bind py_get].
  destruct (eq_str (get_default (lit "role") f JNull) (lit "system")).
  - change (@nil N) with (lit "").
    now destruct (get_default (lit "content") f (JStr (lit ""))).
  - fold (is_turn (get_default (lit "role") f JNull)).
    destruct (is_turn (get_default (lit "role") f JNull)); [|reflexivity].
    change (@nil N) with (lit "").
    destruct (get_default (lit "content") f (JStr (lit ""))) as [| | | | |items|g];
      try reflexivity.
    rewrite <- (translate_content_ok items []).
    now destruct (translate_content items []).
Qed.

Lemma translate_messages_ok (msgs : list json) :
  forall st, succeeds (translate_messages msgs st) = forallb well_formed_message msgs.
Proof.
  induction msgs as [|msg rest IH]; intros [sp cms];
    cbn [translate_messages forallb]; [reflexivity|].
  rewrite <- (translate_message_ok sp cms msg).
  destruct (translate_message (sp, cms) msg) as [e|st']; cbn [bind succeeds andb];
    [reflexivity | apply IH].
Qed.

(** The translation of a list raises exactly when one of its messages is
    not well formed. *)
Lemma translate_ok (msgs : list json) :
  succeeds (translate (JArr msgs)) = forallb well_formed_message msgs.
Proof.
  unfold translate. cbn [bind py_iter].
  rewrite <- (translate_messages_ok msgs (lit "", [])).
  now destruct (translate_messages msgs (lit "", [])).
Qed.

(** C9: the translation of well-formed messages gives a payload, and
    whenever the translation gives a payload, its messages are the entries
    of the input messages whose role is user or assistant, in the order of
    the input: each such message gives exactly one entry (also when its
    list of blocks is empty), other messages give none, and no entry has
    the role system. *)
Theorem C9_turn_order (msgs : list json) :
  (forallb well_formed_message msgs = true -> exists p, translate (JArr msgs) = inr p)
  /\ forall p,
       translate (JArr msgs) = inr p ->
       exists cms,
         field (lit "messages") p = Some (JArr cms)
         /\ Forall2 entry_of (filter (fun m => is_turn (role_of m)) msgs) cms
         /\ map role_of cms = filter is_turn (map role_of msgs)
         /\ Forall (fun m => eq_str (role_of m) (lit "system") = false) cms.
Proof.
  split.
  { intros H. rewrite <- translate_ok in H.
    destruct (translate (JArr msgs)) as [e|p]; [discriminate | eauto]. }
  intros p. unfold translate. cbn [bind py_iter]. intros H.
  apply bind_inr in H as ([sp cms] & Hloop & [= <-]). cbn [fst snd].
  exists cms. split; [apply field_messages|].
  apply translate_messages_entries in Hloop as (new & Hcms & Hnew).
  cbn [app] in Hcms. subst new.
  pose proof (entries_roles msgs cms Hnew) as Hroles.
  split; [exact Hnew|]. split; [exact Hroles|].
  apply Forall_forall. intros m Hm.
  apply is_turn_not_system.
  assert (In (role_of m) (filter is_turn (map role_of msgs))) as Hin.
  { rewrite <- Hroles. now apply in_map. }
  now apply filter_In in Hin.
Qed.

Lemma C9_turn_order_witness :
  exists cms,
    field (lit "messages")
      (bedrock_payload (lit "s" ++ newline)
         [claude_message (JStr (lit "user")) (JStr (lit "hi"));
          claude_message (JStr (lit "assistant")) (JArr [])])
    = Some (JArr cms)
    /\ Forall2 entry_of
         (filter (fun m => is_turn (role_of m))
            [Sample.message "system" (JStr (lit "s"));
             Sample.message "user" (JStr (lit "hi"));
             Sample.message "tool" (JStr (lit "ignored"));
             Sample.message "assistant"
               (JArr [JObj [(lit "type", JStr (lit "audio"))]])])
         cms
    /\ map role_of cms =
         filter is_turn
           (map role_of
              [Sample.message "system" (JStr (lit "s"));
               Sample.message "user" (JStr (lit "hi"));
               Sample.message "tool" (JStr (lit "ignored"));
               Sample.message "assistant"
                 (JArr [JObj [(lit "type", JStr (lit "audio"))]])])
    /\ Forall (fun m => eq_str (role_of m) (lit "system") = false) cms.
Proof.
  apply (proj2 (C9_turn_order
                  [Sample.message "system" (JStr (lit "s"));
                   Sample.message "user" (JStr (lit "hi"));
                   Sample.message "tool" (JStr (lit "ignored"));
                   Sample.message "assistant"
                     (JArr [JObj [(lit "type", JStr (lit "audio"))]])])).
  vm_compute; reflexivity.
Defined.

(* ------------------------------------------------------------------ *)
(** ** The vendor call *)

Section Call.

Variable environ : list (pystr * pystr).
Variable py : runtime.
Variable requests_post : request -> result response.

Lemma call_with_decoded_url_eq (decoded_url : pystr) (messages : json) :
  call_with_decoded_url environ py requests_post decoded_url messages =
    match translate messages with
    | inl e => ([], inl e)
    | inr payload => after_post (BEARER_TOKEN environ) py requests_post payload
    end.
Proof.
  unfold call_with_decoded_url, after_post, lift.
  destruct (translate messages) as [e|payload]; [reflexivity|].
  cbn [io_bind].
  destruct (io_bind (post requests_post _) _) as [ev r]. reflexivity.
Qed.

Lemma posts_after_post (token : pystr) (payload : json) :
  posts (fst (after_post token py requests_post payload)) = [vendor_request token payload].
Proof.
  unfold after_post, post, io_bind, lift, print, ret.
  destruct (requests_post (vendor_request token payload)) as [e|resp]; [reflexivity|].
  destruct (Z.eqb (status_code resp) 200).
  - destruct (json_body resp) as [e|j]; [reflexivity|].
    destruct (reply_text j); reflexivity.
  - destruct (forallb _ _); [reflexivity|].
    destruct (stdout_refuses py _); reflexivity.
Qed.

(** With a credential that decodes, the call is the rest of the call. *)
Lemma call_bedrock_api_try_decoded (decoded_url : pystr) (messages model : json) :
  BEARER_TOKEN environ <> [] ->
  decode_credential (BEARER_TOKEN environ) = inr decoded_url ->
  call_bedrock_api_try environ py requests_post messages model =
    call_with_decoded_url environ py requests_post decoded_url messages.
Proof.
  intros Hne Hdec. unfold call_bedrock_api_try.
  destruct (BEARER_TOKEN environ) as [|c t] eqn:Htok; [congruence|].
  rewrite Hdec. unfold lift. cbn [io_bind].
  now destruct (call_with_decoded_url environ py requests_post decoded_url messages).
Qed.

(** With a credential that does not decode, nothing is sent. *)
Lemma call_bedrock_api_undecodable (e : exn) (messages model : json) :
  BEARER_TOKEN environ <> [] ->
  decode_credential (BEARER_TOKEN environ) = inl e ->
  call_bedrock_api environ py requests_post messages model =
    ([EPrint (lit "Exception calling Bedrock: " ++ str_exn e)],
     JStr (lit "Error: " ++ str_exn e)).
Proof.
  intros Hne Hdec. unfold call_bedrock_api, call_bedrock_api_try.
  destruct (BEARER_TOKEN environ) as [|c t] eqn:Htok; [congruence|].
  rewrite Hdec. reflexivity.
Qed.

(** An exception of the translation ends the call before anything is sent. *)
Lemma translation_error_is_reported (decoded_url : pystr) (e : exn) (messages model : json) :
  BEARER_TOKEN environ <> [] ->
  decode_credential (BEARER_TOKEN environ) = inr decoded_url ->
  translate messages = inl e ->
  call_bedrock_api environ py requests_post messages model =
    ([EPrint (lit "Exception calling Bedrock: " ++ str_exn e)],
     JStr (lit "Error: " ++ str_exn e)).
Proof.
  intros Hne Hdec Htr. unfold call_bedrock_api.
  rewrite (call_bedrock_api_try_decoded decoded_url messages model Hne Hdec).
  rewrite call_with_decoded_url_eq, Htr. reflexivity.
Qed.

(** The reply of a call that reaches the vendor and gets status 200. *)
Lemma call_bedrock_api_200 (decoded_url : pystr) (messages model payload : json)
    (resp : response) :
  BEARER_TOKEN environ <> [] ->
  decode_credential (BEARER_TOKEN environ) = inr decoded_url ->
  translate messages = inr payload ->
  requests_post (vendor_request (BEARER_TOKEN environ) payload) = inr resp ->
  status_code resp = 200%Z ->
  snd (call_bedrock_api environ py requests_post messages model) =
    match bind (json_body resp) reply_text with
    | inr v => v
    | inl e => JStr (lit "Error: " ++ str_exn e)
    end.
Proof.
  intros Hne Hdec Htr Hpost H200. unfold call_bedrock_api.
  rewrite (call_bedrock_api_try_decoded decoded_url messages model Hne Hdec).
  rewrite call_with_decoded_url_eq, Htr.
  unfold after_post, post, io_bind, lift. rewrite Hpost, H200. cbn [Z.eqb Pos.eqb].
  destruct (json_body resp) as [e|j]; [reflexivity|].
  cbn [bind]. destruct (reply_text j); reflexivity.
Qed.

(** The outbound calls of a run whose credential decodes. *)
Lemma posts_call_bedrock_api (decoded_url : pystr) (messages model : json) :
  BEARER_TOKEN environ <> [] ->
  decode_credential (BEARER_TOKEN environ) = inr decoded_url ->
  posts (fst (call_bedrock_api environ py requests_post messages model)) =
    match translate messages with
    | inl _ => []
    | inr payload => [vendor_request (BEARER_TOKEN environ) payload]
    end.
Proof.
  intros Hne Hdec. unfold call_bedrock_api.
  rewrite (call_bedrock_api_try_decoded decoded_url messages model Hne Hdec).
  rewrite call_with_decoded_url_eq.
  destruct (translate messages) as [e|payload]; [reflexivity|].
  pose proof (posts_after_post (BEARER_TOKEN environ) payload) as Hp.
  destruct (after_post (BEARER_TOKEN environ) py requests_post payload) as [ev [e|v]];
    cbn [fst] in *; [|exact Hp].
  rewrite posts_app, Hp. reflexivity.
Qed.

End Call.

(* ------------------------------------------------------------------ *)
(** ** Properties of the call *)

(** A list with a message that is not well formed makes the translation
    raise. *)
Lemma ill_formed_messages_raise (msgs : list json) :
  forallb well_formed_message msgs = false ->
  exists e, translate (JArr msgs) = inl e.
Proof.
  intros H. rewrite <- translate_ok in H.
  destruct (translate (JArr msgs)) as [e|p]; [eauto | discriminate].
Qed.

(** C2 (as the code has it): the translation of a list of well-formed
    messages never raises.  A message is well formed when it is an object,
    its content is a string (or absent) if its role is system, and, if its
    role is user or assistant and its content a list, every item is an
    object whose image_url entry, for an item of that type, is an object
    with a string url that holds a comma when it begins with data:image/.
    Within such a list nothing else aborts: an item whose type is neither
    text nor image_url (or is absent) adds no block; an image_url item
    whose url (the empty string when image_url or url is absent) does not
    begin with data:image/ adds no block; a text item adds one text block
    with its text (the empty string when absent); a message without role
    is passed over; a system message without content adds an empty line;
    a user or assistant message without content gets the empty string as
    content. *)
Theorem C2_well_formed_messages_translate (msgs : list json) :
  forallb well_formed_message msgs = true ->
  (exists p, translate (JArr msgs) = inr p)
  /\ (forall f,
        eq_str (get_default (lit "type") f JNull) (lit "text") = false ->
        eq_str (get_default (lit "type") f JNull) (lit "image_url") = false ->
        translate_item (JObj f) = inr [])
  /\ (forall f g u,
        get_default (lit "type") f JNull = JStr (lit "image_url") ->
        get_default (lit "image_url") f (JObj []) = JObj g ->
        get_default (lit "url") g (JStr (lit "")) = JStr u ->
        startswith (lit "data:image/") u = false ->
        translate_item (JObj f) = inr [])
  /\ (forall f,
        get_default (lit "type") f JNull = JStr (lit "text") ->
        translate_item (JObj f) =
          inr [JObj [(lit "type", JStr (lit "text"));
                     (lit "text", get_default (lit "text") f (JStr (lit "")))]])
  /\ (forall sp cms f,
        lookup (lit "role") f = None ->
        translate_message (sp, cms) (JObj f) = inr (sp, cms))
  /\ (forall sp cms f,
        lookup (lit "role") f = Some (JStr (lit "system")) ->
        lookup (lit "content") f = None ->
        translate_message (sp, cms) (JObj f) = inr (sp ++ newline, cms))
  /\ (forall sp cms f role,
        lookup (lit "role") f = Some (JStr role) ->
        role = lit "user" \/ role = lit "assistant" ->
        lookup (lit "content") f = None ->
        translate_message (sp, cms) (JObj f) =
          inr (sp, cms ++ [JObj [(lit "role", JStr role);
                                 (lit "content", JStr (lit ""))]])).
Proof.
  intros H. split; [|split; [|split; [|split; [|split; [|split]]]]].
  - rewrite <- translate_ok in H.
    destruct (translate (JArr msgs)) as [e|p]; [discriminate | eauto].
  - intros f Ht Hi. unfold translate_item. cbn [bind py_get].
    now rewrite Ht, Hi.
  - intros f g u Ht Hi Hu Hs.
    rewrite (translate_item_image f g u Ht Hi Hu). now rewrite Hs.
  - intros f Ht. unfold translate_item. cbn [bind py_get].
    rewrite Ht. lit_eval. reflexivity.
  - intros sp cms f Hr. unfold translate_message. cbn [bind py_get].
    unfold get_default. rewrite Hr. reflexivity.
  - intros sp cms f Hr Hc. unfold translate_message. cbn [bind py_get].
    unfold get_default. rewrite Hr, Hc. lit_eval. reflexivity.
  - intros sp cms f role Hr Hturn Hc. unfold translate_message. cbn [bind py_get].
    unfold get_default. rewrite Hr, Hc.
    destruct Hturn as [-> | ->]; lit_eval; reflexivity.
Qed.

Lemma C2_well_formed_messages_translate_witness :
  exists p,
    translate
      (JArr [Sample.message "system" (JStr (lit "be brief"));
             JObj [(lit "role", JStr (lit "user"))];
             Sample.message "user"
               (JArr [Sample.text_item "look";
                      JObj [(lit "type", JStr (lit "audio"))];
                      Sample.image_item "https://example.com/cat.png";
                      Sample.image_item "data:image/png;base64,QUJD"]);
             Sample.message "tool" (JArr [JNull])]) = inr p.
Proof.
  apply (C2_well_formed_messages_translate
           [Sample.message "system" (JStr (lit "be brief"));
            JObj [(lit "role", JStr (lit "user"))];
            Sample.message "user"
              (JArr [Sample.text_item "look";
                     JObj [(lit "type", JStr (lit "audio"))];
                     Sample.image_item "https://example.com/cat.png";
                     Sample.image_item "data:image/png;base64,QUJD"]);
            Sample.message "tool" (JArr [JNull])]).
  vm_compute; reflexivity.
Defined.

(** C2 as stated fails: a system message with a list as content makes the
    translation raise a TypeError (its text is not taken as empty), and
    the call ends in its exception path without a vendor call. *)
Lemma C2_counterexample :
  translate
    (JArr [Sample.message "user" (JStr (lit "hi"));
           Sample.message "system" (JArr [Sample.text_item "be brief"])]) =
    inl (TypeError (lit "can only concatenate list (not " ++ dquote
                      ++ lit "str" ++ dquote ++ lit ") to list"))
  /\ call_bedrock_api (Sample.environ_with "aGk") Sample.lenient
       (Sample.vendor 200 (Sample.reply "hello"))
       (JArr [Sample.message "user" (JStr (lit "hi"));
              Sample.message "system" (JArr [Sample.text_item "be brief"])])
       (JStr (lit "claude-sonnet-4")) =
       ([EPrint (lit "Exception calling Bedrock: can only concatenate list (not "
                   ++ dquote ++ lit "str" ++ dquote ++ lit ") to list")],
        JStr (lit "Error: can only concatenate list (not " ++ dquote
                ++ lit "str" ++ dquote ++ lit ") to list")).
Proof. split; vm_compute; reflexivity. Qed.

(** C4 (as the code has it): for a non-empty credential whose stripped,
    padded remainder decodes (base64, then UTF-8), the decoded string has
    no effect: the call is the same for any other decoded string, and the
    one request sent, if the translation succeeds, carries the undecoded
    credential as its Bearer authorization. *)
Theorem C4_decoded_credential_unused
    (environ : list (pystr * pystr)) (py : runtime) (requests_post : request -> result response)
    (messages model : json) (decoded_url : pystr) :
  BEARER_TOKEN environ <> [] ->
  decode_credential (BEARER_TOKEN environ) = inr decoded_url ->
  (forall other,
     call_bedrock_api_try environ py requests_post messages model =
       call_with_decoded_url environ py requests_post other messages)
  /\ posts (fst (call_bedrock_api environ py requests_post messages model)) =
       match translate messages with
       | inl _ => []
       | inr payload =>
           [{| url := bedrock_url;
               headers := [(lit "Content-Type", lit "application/json");
                           (lit "Authorization", lit "Bearer " ++ BEARER_TOKEN environ)];
               json_payload := payload;
               timeout := 30 |}]
       end.
Proof.
  intros Hne Hdec. split.
  - intros other.
    rewrite (call_bedrock_api_try_decoded environ py requests_post decoded_url
               messages model Hne Hdec).
    now rewrite !call_with_decoded_url_eq.
  - exact (posts_call_bedrock_api environ py requests_post decoded_url
             messages model Hne Hdec).
Qed.

Lemma C4_decoded_credential_unused_witness :
  BEARER_TOKEN (Sample.environ_with "bedrock-api-key-aGk") <> []
  /\ decode_credential (BEARER_TOKEN (Sample.environ_with "bedrock-api-key-aGk"))
     = inr (lit "hi")
  /\ posts (fst (call_bedrock_api (Sample.environ_with "bedrock-api-key-aGk") Sample.lenient
                   (Sample.vendor 200 (Sample.reply "hello"))
                   (JArr [Sample.message "user" (JStr (lit "hi"))])
                   (JStr (lit "claude-sonnet-4")))) =
       match translate (JArr [Sample.message "user" (JStr (lit "hi"))]) with
       | inl _ => []
       | inr payload =>
           [{| url := bedrock_url;
               headers := [(lit "Content-Type", lit "application/json");
                           (lit "Authorization",
                            lit "Bearer " ++ BEARER_TOKEN (Sample.environ_with "bedrock-api-key-aGk"))];
               json_payload := payload;
               timeout := 30 |}]
       end.
Proof.
  split; [discriminate|]. split; [vm_compute; reflexivity|].
  apply (C4_decoded_credential_unused (Sample.environ_with "bedrock-api-key-aGk") Sample.lenient
           (Sample.vendor 200 (Sample.reply "hello"))
           (JArr [Sample.message "user" (JStr (lit "hi"))])
           (JStr (lit "claude-sonnet-4")) (lit "hi")).
  - discriminate.
  - vm_compute; reflexivity.
Defined.

(** C4 as stated fails: the non-empty credentials "a" (no base64 quad) and
    "/w" (a byte that is no UTF-8) make the decode raise; the call then
    returns an error text and sends no request, so no Bearer header is
    forwarded at all. *)
Lemma C4_counterexample :
  BEARER_TOKEN (Sample.environ_with "a") = lit "a"
  /\ call_bedrock_api (Sample.environ_with "a") Sample.lenient
       (Sample.vendor 200 (Sample.reply "hello"))
       (JArr [Sample.message "user" (JStr (lit "hi"))]) (JStr (lit "claude-sonnet-4")) =
       ([EPrint (lit "Exception calling Bedrock: Invalid base64-encoded string: number of data characters (1) cannot be 1 more than a multiple of 4")],
        JStr (lit "Error: Invalid base64-encoded string: number of data characters (1) cannot be 1 more than a multiple of 4"))
  /\ call_bedrock_api (Sample.environ_with "/w") Sample.lenient
       (Sample.vendor 200 (Sample.reply "hello"))
       (JArr [Sample.message "user" (JStr (lit "hi"))]) (JStr (lit "claude-sonnet-4")) =
       ([EPrint (lit "Exception calling Bedrock: 'utf-8' codec can't decode byte 0xff in position 0: invalid start byte")],
        JStr (lit "Error: 'utf-8' codec can't decode byte 0xff in position 0: invalid start byte"))
  /\ posts (fst (call_with_decoded_url (Sample.environ_with "a") Sample.lenient
                   (Sample.vendor 200 (Sample.reply "hello")) (lit "")
                   (JArr [Sample.message "user" (JStr (lit "hi"))]))) =
       [{| url := bedrock_url;
           headers := [(lit "Content-Type", lit "application/json");
                       (lit "Authorization", lit "Bearer a")];
           json_payload :=
             bedrock_payload (lit "")
               [claude_message (JStr (lit "user")) (JStr (lit "hi"))];
           timeout := 30 |}].
Proof. repeat split; vm_compute; reflexivity. Qed.

(** The reply text of a vendor body, where the source's defaults apply. *)
Lemma reply_text_present (fields block : list (pystr * json)) (rest : list json) (t : json) :
  lookup (lit "content") fields = Some (JArr (JObj block :: rest)) ->
  lookup (lit "text") block = Some t ->
  reply_text (JObj fields) = inr t.
Proof.
  intros Hc Ht. unfold reply_text. cbn [bind py_get].
  unfold get_default at 1. rewrite Hc. cbn [bind py_first py_get].
  unfold get_default. now rewrite Ht.
Qed.

Lemma reply_text_absent (fields : list (pystr * json)) :
  lookup (lit "content") fields = None
  \/ (exists block rest,
        lookup (lit "content") fields = Some (JArr (JObj block :: rest))
        /\ lookup (lit "text") block = None) ->
  reply_text (JObj fields) = inr (JStr (lit "No response")).
Proof.
  unfold reply_text. cbn [bind py_get]. unfold get_default at 1.
  intros [->|(block & rest & -> & Ht)]; [reflexivity|].
  cbn [bind py_first py_get]. unfold get_default. now rewrite Ht.
Qed.

(** C5, where the code departs from it: a vendor answer with status 200
    whose content sequence is empty does not give the sentinel
    "No response"; indexing the empty list raises, and the reply is the
    error text "Error: list index out of range". *)
Theorem C5_empty_content_is_an_error
    (environ : list (pystr * pystr)) (py : runtime) (requests_post : request -> result response)
    (messages model payload : json) (decoded_url : pystr) (resp : response)
    (fields : list (pystr * json)) :
  BEARER_TOKEN environ <> [] ->
  decode_credential (BEARER_TOKEN environ) = inr decoded_url ->
  translate messages = inr payload ->
  requests_post
    {| url := bedrock_url;
       headers := [(lit "Content-Type", lit "application/json");
                   (lit "Authorization", lit "Bearer " ++ BEARER_TOKEN environ)];
       json_payload := payload;
       timeout := 30 |} = inr resp ->
  status_code resp = 200%Z ->
  json_body resp = inr (JObj fields) ->
  lookup (lit "content") fields = Some (JArr []) ->
  snd (call_bedrock_api environ py requests_post messages model) =
    JStr (lit "Error: list index out of range").
Proof.
  intros Hne Hdec Htr Hpost H200 Hbody Hcontent.
  rewrite (call_bedrock_api_200 environ py requests_post decoded_url messages model
             payload resp Hne Hdec Htr Hpost H200).
  rewrite Hbody. unfold reply_text. cbn [bind py_get].
  unfold get_default. rewrite Hcontent. reflexivity.
Qed.

Lemma C5_empty_content_is_an_error_witness :
  snd (call_bedrock_api (Sample.environ_with "bedrock-api-key-aGk") Sample.lenient
         (Sample.vendor 200 (JObj [(lit "id", JStr (lit "msg_1")); (lit "content", JArr [])]))
         (JArr [Sample.message "user" (JStr (lit "hi"))])
         (JStr (lit "claude-sonnet-4"))) =
    JStr (lit "Error: list index out of range")
  /\ reply_text (JObj [(lit "id", JStr (lit "msg_1"))]) = inr (JStr (lit "No response")).
Proof.
  split; [|reflexivity].
  apply (C5_empty_content_is_an_error (Sample.environ_with "bedrock-api-key-aGk") Sample.lenient
           (Sample.vendor 200 (JObj [(lit "id", JStr (lit "msg_1")); (lit "content", JArr [])]))
           (JArr [Sample.message "user" (JStr (lit "hi"))])
           (JStr (lit "claude-sonnet-4"))
           (bedrock_payload (lit "") [claude_message (JStr (lit "user")) (JStr (lit "hi"))])
           (lit "hi")
           {| status_code := 200; text := lit "{}";
              json_body := inr (JObj [(lit "id", JStr (lit "msg_1")); (lit "content", JArr [])]) |}
           [(lit "id", JStr (lit "msg_1")); (lit "content", JArr [])]).
  - discriminate.
  - vm_compute; reflexivity.
  - vm_compute; reflexivity.
  - reflexivity.
  - reflexivity.
  - reflexivity.
  - reflexivity.
Defined.

(* ------------------------------------------------------------------ *)
(** ** More on strings and on the credential *)

Lemma lstrip_head (s : pystr) (c : N) (t : pystr) :
  lstrip s = c :: t -> isspace c = false.
Proof.
  induction s as [|x s IH]; simpl; [discriminate|].
  destruct (isspace x) eqn:E; [exact IH | now intros [= <- _]].
Qed.

Lemma lstrip_idem (s : pystr) : lstrip (lstrip s) = lstrip s.
Proof.
  destruct (lstrip s) as [|c t] eqn:E; [reflexivity|].
  simpl. now rewrite (lstrip_head s c t E).
Qed.

Lemma lstrip_app_nonspace (s : pystr) (c : N) :
  isspace c = false -> lstrip (s ++ [c]) = lstrip s ++ [c].
Proof.
  intros Hc. induction s as [|x s IH]; simpl.
  - now rewrite Hc.
  - destruct (isspace x); [exact IH | reflexivity].
Qed.

Lemma rstrip_cons_nonspace (c : N) (t : pystr) :
  isspace c = false -> rstrip (c :: t) = c :: rstrip t.
Proof.
  intros Hc. unfold rstrip. simpl.
  rewrite (lstrip_app_nonspace (rev t) c Hc), rev_app_distr. reflexivity.
Qed.

Lemma rstrip_idem (s : pystr) : rstrip (rstrip s) = rstrip s.
Proof. unfold rstrip. now rewrite rev_involutive, lstrip_idem. Qed.

(** Trimming twice is trimming once. *)
Lemma strip_idem (s : pystr) : strip (strip s) = strip s.
Proof.
  unfold strip.
  destruct (lstrip s) as [|c t] eqn:E; [reflexivity|].
  pose proof (lstrip_head s c t E) as Hc.
  rewrite (rstrip_cons_nonspace c t Hc).
  simpl lstrip. rewrite Hc.
  rewrite <- (rstrip_cons_nonspace c t Hc). apply rstrip_idem.
Qed.

Lemma startswith_length (p s : pystr) :
  startswith p s = true -> (List.length p <= List.length s)%nat.
Proof.
  revert s; induction p as [|x p IH]; intros s H; simpl; [lia|].
  destruct s as [|y s]; [discriminate|]. simpl in H |- *.
  apply andb_prop in H as [_ H]. apply IH in H. lia.
Qed.

Lemma startswith_snoc (p s : pystr) (c : N) :
  ~ In c p -> p <> [] -> startswith p (s ++ [c]) = startswith p s.
Proof.
  revert s; induction p as [|x p IH]; intros s Hc Hp; [congruence|].
  destruct s as [|y s]; simpl.
  - destruct (N.eqb_spec x c) as [->|_]; [destruct Hc; now left | reflexivity].
  - destruct (N.eqb x y); [|reflexivity]. simpl.
    destruct p as [|x' p']; [reflexivity|].
    apply IH; [|discriminate]. intros Hin; apply Hc; now right.
Qed.

(** The characters still to be dropped of a matched occurrence. *)
Lemma replace_from_skip (old new a t : pystr) :
  replace_from old new (List.length a) (a ++ t) = replace_from old new 0 t.
Proof. induction a as [|x a IH]; [reflexivity | exact IH]. Qed.

Lemma replace_prefix (old new t : pystr) :
  old <> [] -> replace old new (old ++ t) = new ++ replace old new t.
Proof.
  intros Hold. unfold replace.
  destruct old as [|x old']; [congruence|].
  change ((x :: old') ++ t) with (x :: (old' ++ t)).
  cbn [replace_from].
  change (x :: old' ++ t) with ((x :: old') ++ t).
  rewrite startswith_prefix. cbn [List.length pred].
  now rewrite replace_from_skip.
Qed.

Lemma replace_from_snoc (old new : pystr) (c : N) :
  ~ In c old -> old <> [] ->
  forall s k, (k <= List.length s)%nat ->
    replace_from old new k (s ++ [c]) = replace_from old new k s ++ [c].
Proof.
  intros Hc Hold. induction s as [|y s IH]; intros k Hk.
  - assert (k = 0)%nat as -> by (simpl in Hk; lia).
    cbn [app replace_from].
    pose proof (startswith_snoc old [] c Hc Hold) as E. cbn [app] in E. rewrite E.
    destruct old as [|x o]; [congruence | reflexivity].
  - cbn [app replace_from]. destruct k as [|k].
    + change (y :: s ++ [c]) with ((y :: s) ++ [c]).
      rewrite (startswith_snoc old (y :: s) c Hc Hold).
      destruct (startswith old (y :: s)) eqn:E.
      * apply startswith_length in E. simpl in E.
        rewrite IH by (destruct old; simpl in *; lia).
        now rewrite app_assoc.
      * rewrite IH by lia. reflexivity.
    + apply IH. simpl in Hk. lia.
Qed.

(** Once three pads follow, a fourth is never read. *)
Lemma a2b_base64_pads (data : list N) :
  forall quad_pos leftchar pads out,
    a2b_base64 (data ++ [61; 61; 61; 61]%N) quad_pos leftchar pads out =
    a2b_base64 (data ++ [61; 61; 61]%N) quad_pos leftchar pads out.
Proof.
  induction data as [|c data IH]; intros quad_pos leftchar pads out.
  - cbn [app a2b_base64 N.eqb Pos.eqb].
    destruct (N.leb_spec 2 quad_pos) as [H2|H2]; [|reflexivity].
    destruct (N.leb_spec 4 (quad_pos + (pads + 1))) as [H4|H4]; [reflexivity|].
    destruct (N.leb_spec 4 (quad_pos + (pads + 1 + 1))) as [H5|H5]; [reflexivity|].
    lia.
  - cbn [app a2b_base64].
    destruct (N.eqb c 61).
    + destruct (N.leb 2 quad_pos); [|apply IH].
      destruct (N.leb 4 (quad_pos + (pads + 1))); [reflexivity | apply IH].
    + destruct (b64_value c) as [v|]; [|apply IH].
      destruct (N.eqb quad_pos 0); [apply IH|].
      destruct (N.eqb quad_pos 1); [apply IH|].
      destruct (N.eqb quad_pos 2); apply IH.
Qed.

(** X10: the credential decodes the same with or without the prefix
    "bedrock-api-key-" in front. *)
Theorem credential_prefix_is_optional (t : pystr) :
  decode_credential (lit "bedrock-api-key-" ++ t) = decode_credential t.
Proof.
  unfold decode_credential.
  rewrite replace_prefix by (vm_compute; discriminate).
  reflexivity.
Qed.

(** X11: the three pads the code appends make a pad of the credential's
    own superfluous: a credential followed by "=" decodes (or fails) as
    the credential alone. *)
Theorem credential_padding_is_optional (t : pystr) :
  decode_credential (t ++ lit "=") = decode_credential t.
Proof.
  unfold decode_credential, replace.
  change (lit "=") with [61%N].
  rewrite replace_from_snoc;
    [ | vm_compute; intuition discriminate | vm_compute; discriminate | lia ].
  rewrite <- app_assoc.
  change ([61%N] ++ lit "===") with [61; 61; 61; 61]%N.
  change (lit "===") with [61; 61; 61]%N.
  unfold b64decode. rewrite !forallb_app.
  change (forallb (fun c => (c <? 128)%N) [61; 61; 61; 61]%N) with true.
  change (forallb (fun c => (c <? 128)%N) [61; 61; 61]%N) with true.
  destruct (forallb _ _); [|reflexivity].
  cbn [andb]. now rewrite a2b_base64_pads.
Qed.

(* ------------------------------------------------------------------ *)
(** ** More on the vendor call *)

(** X3: a vendor answer whose status is not 200 is logged with its text,
    and its JSON body is not looked at.  When the line can be written to
    stdout the reply is "Error calling Bedrock: <status>"; when writing it
    raises, the reply is "Error: <text of that exception>". *)
Theorem vendor_status_other_than_200
    (environ : list (pystr * pystr)) (py : runtime)
    (requests_post : request -> result response)
    (messages model payload : json) (decoded_url : pystr) (resp : response) :
  BEARER_TOKEN environ <> [] ->
  decode_credential (BEARER_TOKEN environ) = inr decoded_url ->
  translate messages = inr payload ->
  requests_post (vendor_request (BEARER_TOKEN environ) payload) = inr resp ->
  status_code resp <> 200%Z ->
  (forallb (fun c => N.ltb c 128)
     (lit "Bedrock API error: " ++ str_of_Z (status_code resp)
        ++ lit " - " ++ text resp) = true
   \/ stdout_refuses py
        (lit "Bedrock API error: " ++ str_of_Z (status_code resp)
           ++ lit " - " ++ text resp) = None ->
   call_bedrock_api environ py requests_post messages model =
     ([EPost (vendor_request (BEARER_TOKEN environ) payload);
       EPrint (lit "Bedrock API error: " ++ str_of_Z (status_code resp)
                 ++ lit " - " ++ text resp)],
      JStr (lit "Error calling Bedrock: " ++ str_of_Z (status_code resp))))
  /\ (forall e,
        forallb (fun c => N.ltb c 128)
          (lit "Bedrock API error: " ++ str_of_Z (status_code resp)
             ++ lit " - " ++ text resp) = false ->
        stdout_refuses py
          (lit "Bedrock API error: " ++ str_of_Z (status_code resp)
             ++ lit " - " ++ text resp) = Some e ->
        call_bedrock_api environ py requests_post messages model =
          ([EPost (vendor_request (BEARER_TOKEN environ) payload);
            EPrint (lit "Exception calling Bedrock: " ++ str_exn e)],
           JStr (lit "Error: " ++ str_exn e))).
Proof.
  intros Hne Hdec Htr Hpost Hstatus. unfold call_bedrock_api.
  rewrite (call_bedrock_api_try_decoded environ py requests_post decoded_url
             messages model Hne Hdec).
  rewrite call_with_decoded_url_eq, Htr.
  unfold after_post, post, io_bind, lift, print, ret. rewrite Hpost.
  destruct (Z.eqb_spec (status_code resp) 200) as [E|_]; [contradiction|].
  split.
  - intros [-> | Hok]; [reflexivity|].
    destruct (forallb _ _); [reflexivity|]. rewrite Hok. reflexivity.
  - intros e -> ->. reflexivity.
Qed.

Lemma vendor_status_other_than_200_witness :
  call_bedrock_api (Sample.environ_with "aGk") Sample.strict
    (fun _ => inr {| status_code := 500; text := [233%N];
                     json_body := inr (JObj []) |})
    (JArr [Sample.message "user" (JStr (lit "hi"))]) (JStr (lit "claude-sonnet-4")) =
    ([EPost (vendor_request (BEARER_TOKEN (Sample.environ_with "aGk"))
               (bedrock_payload (lit "")
                  [claude_message (JStr (lit "user")) (JStr (lit "hi"))]));
      EPrint (lit "Exception calling Bedrock: 'ascii' codec can't encode characters: ordinal not in range(128)")],
     JStr (lit "Error: 'ascii' codec can't encode characters: ordinal not in range(128)")).
Proof.
  refine (proj2 (vendor_status_other_than_200 (Sample.environ_with "aGk") Sample.strict
                   (fun _ => inr {| status_code := 500; text := [233%N];
                                    json_body := inr (JObj []) |})
                   (JArr [Sample.message "user" (JStr (lit "hi"))])
                   (JStr (lit "claude-sonnet-4"))
                   (bedrock_payload (lit "")
                      [claude_message (JStr (lit "user")) (JStr (lit "hi"))])
                   (lit "hi")
                   {| status_code := 500; text := [233%N]; json_body := inr (JObj []) |}
                   _ _ _ _ _)
            (UnicodeEncodeError
               (lit "'ascii' codec can't encode characters: ordinal not in range(128)"))
            _ _);
    first [discriminate | vm_compute; reflexivity].
Defined.



(** X5: an exception raised before the request is built -- by the decode
    of the credential or by the translation -- is logged and becomes the
    reply "Error: <exception text>"; nothing is sent. *)
Theorem early_exception_is_reported
    (environ : list (pystr * pystr)) (py : runtime) (requests_post : request -> result response)
    (messages model : json) (e : exn) :
  BEARER_TOKEN environ <> [] ->
  bind (decode_credential (BEARER_TOKEN environ)) (fun _ => translate messages) = inl e ->
  call_bedrock_api environ py requests_post messages model =
    ([EPrint (lit "Exception calling Bedrock: " ++ str_exn e)],
     JStr (lit "Error: " ++ str_exn e)).
Proof.
  intros Hne H.
  destruct (decode_credential (BEARER_TOKEN environ)) as [e'|d] eqn:Hdec.
  - injection H as <-.
    now apply call_bedrock_api_undecodable.
  - cbn [bind] in H.
    now apply (translation_error_is_reported environ py requests_post d).
Qed.

Lemma early_exception_is_reported_witness :
  call_bedrock_api (Sample.environ_with "aGk") Sample.lenient
    (Sample.vendor 200 (Sample.reply "hello"))
    (JArr [JStr (lit "hi")]) (JStr (lit "claude-sonnet-4")) =
    ([EPrint (lit "Exception calling Bedrock: "
                ++ str_exn (AttributeError (lit "str") (lit "get")))],
     JStr (lit "Error: " ++ str_exn (AttributeError (lit "str") (lit "get")))).
Proof.
  apply (early_exception_is_reported (Sample.environ_with "aGk") Sample.lenient
           (Sample.vendor 200 (Sample.reply "hello"))
           (JArr [JStr (lit "hi")]) (JStr (lit "claude-sonnet-4"))
           (AttributeError (lit "str") (lit "get"))).
  - discriminate.
  - vm_compute; reflexivity.
Defined.

(** X6: whatever the credential, the messages and the vendor do, the reply
    of [call_bedrock_api] is either a text that begins with "Error", or
    the reply text of a vendor answer with status 200 to the request built
    from the translated messages. *)
Theorem reply_is_vendor_text_or_error
    (environ : list (pystr * pystr)) (py : runtime) (requests_post : request -> result response)
    (messages model : json) :
  (exists s,
     snd (call_bedrock_api environ py requests_post messages model) = JStr (lit "Error" ++ s))
  \/ (exists payload resp answer,
        translate messages = inr payload
        /\ requests_post (vendor_request (BEARER_TOKEN environ) payload) = inr resp
        /\ status_code resp = 200%Z
        /\ json_body resp = inr answer
        /\ reply_text answer = inr (snd (call_bedrock_api environ py requests_post messages model))).
Proof.
  destruct (BEARER_TOKEN environ) as [|c t] eqn:Htok.
  { left. exists (lit ": Server API Token is not configured.").
    unfold call_bedrock_api, call_bedrock_api_try. rewrite Htok. reflexivity. }
  assert (BEARER_TOKEN environ <> []) as Hne by (rewrite Htok; discriminate).
  rewrite <- Htok.
  destruct (decode_credential (BEARER_TOKEN environ)) as [e|d] eqn:Hdec.
  { left. exists (lit ": " ++ str_exn e).
    now rewrite (call_bedrock_api_undecodable environ py requests_post e messages model Hne Hdec). }
  destruct (translate messages) as [e|payload] eqn:Htr.
  { left. exists (lit ": " ++ str_exn e).
    now rewrite (translation_error_is_reported environ py requests_post d e messages model
                   Hne Hdec Htr). }
  unfold call_bedrock_api.
  rewrite (call_bedrock_api_try_decoded environ py requests_post d messages model Hne Hdec).
  rewrite call_with_decoded_url_eq, Htr.
  unfold after_post, post, io_bind, lift, print, ret.
  destruct (requests_post (vendor_request (BEARER_TOKEN environ) payload))
    as [e|resp] eqn:Hpost.
  { left. exists (lit ": " ++ str_exn e). reflexivity. }
  destruct (Z.eqb_spec (status_code resp) 200) as [H200|_].
  2:{ destruct (forallb _ _);
        [left; exists (lit " calling Bedrock: " ++ str_of_Z (status_code resp));
         reflexivity|].
      destruct (stdout_refuses py _) as [e|]; left;
        [exists (lit ": " ++ str_exn e)
        |exists (lit " calling Bedrock: " ++ str_of_Z (status_code resp))];
        reflexivity. }
  destruct (json_body resp) as [e|answer] eqn:Hbody.
  { left. exists (lit ": " ++ str_exn e). reflexivity. }
  destruct (reply_text answer) as [e|v] eqn:Hreply.
  { left. exists (lit ": " ++ str_exn e). reflexivity. }
  right. exists payload, resp, answer. repeat split; assumption.
Qed.

(** X7: a call sends at most one request, and sends it exactly when the
    credential is not empty, decodes, and the messages translate; the
    request goes to the fixed URL with the translated payload, whatever
    the requested model is. *)
Theorem request_is_sent_exactly_when
    (environ : list (pystr * pystr)) (py : runtime) (requests_post : request -> result response)
    (messages model : json) :
  posts (fst (call_bedrock_api environ py requests_post messages model)) =
    match BEARER_TOKEN environ with
    | [] => []
    | _ :: _ =>
        match decode_credential (BEARER_TOKEN environ), translate messages with
        | inr _, inr payload => [vendor_request (BEARER_TOKEN environ) payload]
        | _, _ => []
        end
    end.
Proof.
  destruct (BEARER_TOKEN environ) as [|c t] eqn:Htok.
  { unfold call_bedrock_api, call_bedrock_api_try. rewrite Htok. reflexivity. }
  assert (BEARER_TOKEN environ <> []) as Hne by (rewrite Htok; discriminate).
  rewrite <- Htok.
  destruct (decode_credential (BEARER_TOKEN environ)) as [e|d] eqn:Hdec.
  { now rewrite (call_bedrock_api_undecodable environ py requests_post e messages model Hne Hdec). }
  rewrite (posts_call_bedrock_api environ py requests_post d messages model Hne Hdec).
  destruct (translate messages); reflexivity.
Qed.

(** X9: a vendor answer with status 200 whose body has no content entry,
    or whose first block has no text entry, gives the reply "No response". *)
Theorem absent_text_gives_no_response
    (environ : list (pystr * pystr)) (py : runtime) (requests_post : request -> result response)
    (messages model payload : json) (decoded_url : pystr) (resp : response)
    (fields : list (pystr * json)) :
  BEARER_TOKEN environ <> [] ->
  decode_credential (BEARER_TOKEN environ) = inr decoded_url ->
  translate messages = inr payload ->
  requests_post (vendor_request (BEARER_TOKEN environ) payload) = inr resp ->
  status_code resp = 200%Z ->
  json_body resp = inr (JObj fields) ->
  lookup (lit "content") fields = None
  \/ (exists block rest,
        lookup (lit "content") fields = Some (JArr (JObj block :: rest))
        /\ lookup (lit "text") block = None) ->
  snd (call_bedrock_api environ py requests_post messages model) = JStr (lit "No response").
Proof.
  intros Hne Hdec Htr Hpost H200 Hbody Habsent.
  rewrite (call_bedrock_api_200 environ py requests_post decoded_url messages model
             payload resp Hne Hdec Htr Hpost H200).
  rewrite Hbody. cbn [bind]. now rewrite (reply_text_absent fields Habsent).
Qed.

Lemma absent_text_gives_no_response_witness :
  snd (call_bedrock_api (Sample.environ_with "aGk") Sample.lenient
         (Sample.vendor 200
            (JObj [(lit "content",
                    JArr [JObj [(lit "type", JStr (lit "tool_use"))];
                          JObj [(lit "type", JStr (lit "text"));
                                (lit "text", JStr (lit "later"))]])]))
         (JArr [Sample.message "user" (JStr (lit "hi"))]) (JStr (lit "claude-sonnet-4")))
  = JStr (lit "No response").
Proof.
  apply (absent_text_gives_no_response (Sample.environ_with "aGk") Sample.lenient
           (Sample.vendor 200
              (JObj [(lit "content",
                      JArr [JObj [(lit "type", JStr (lit "tool_use"))];
                            JObj [(lit "type", JStr (lit "text"));
                                  (lit "text", JStr (lit "later"))]])]))
           (JArr [Sample.message "user" (JStr (lit "hi"))]) (JStr (lit "claude-sonnet-4"))
           (bedrock_payload (lit "")
              [claude_message (JStr (lit "user")) (JStr (lit "hi"))])
           (lit "hi")
           {| status_code := 200; text := lit "{}";
              json_body :=
                inr (JObj [(lit "content",
                            JArr [JObj [(lit "type", JStr (lit "tool_use"))];
                                  JObj [(lit "type", JStr (lit "text"));
                                        (lit "text", JStr (lit "later"))]])]) |}
           [(lit "content",
             JArr [JObj [(lit "type", JStr (lit "tool_use"))];
                   JObj [(lit "type", JStr (lit "text"));
                         (lit "text", JStr (lit "later"))]])]).
  - discriminate.
  - vm_compute; reflexivity.
  - vm_compute; reflexivity.
  - reflexivity.
  - reflexivity.
  - reflexivity.
  - right. eexists; eexists. split; reflexivity.
Defined.

(* ------------------------------------------------------------------ *)
(** ** More on the route *)

(** The route on a body that is an object. *)
Lemma chat_completions_object
    (environ : list (pystr * pystr)) (py : runtime) (requests_post : request -> result response)
    (fields : list (pystr * json)) (model : json) :
  chat_completions environ py requests_post POST (inr (JObj fields)) =
    (fst (call_bedrock_api environ py requests_post
            (get_default (lit "messages") fields (JArr [])) model),
     match
       encoder_refuses py
         (completion (get_default (lit "model") fields (JStr (lit "claude-sonnet-4")))
            (snd (call_bedrock_api environ py requests_post
                    (get_default (lit "messages") fields (JArr [])) model)))
     with
     | Some e =>
         {| status := 500;
            body := JObj [(lit "error", JStr (str_exn e))];
            set_headers := [] |}
     | None =>
         jsonify
           (completion (get_default (lit "model") fields (JStr (lit "claude-sonnet-4")))
              (snd (call_bedrock_api environ py requests_post
                      (get_default (lit "messages") fields (JArr [])) model)))
     end).
Proof.
  unfold chat_completions, chat_completions_try, try_jsonify, lift, io_bind.
  cbn [py_get].
  change (call_bedrock_api environ py requests_post
            (get_default (lit "messages") fields (JArr []))
            (get_default (lit "model") fields (JStr (lit "claude-sonnet-4"))))
    with (call_bedrock_api environ py requests_post
            (get_default (lit "messages") fields (JArr [])) model).
  destruct (call_bedrock_api _ _ _ _ _) as [ev v]. cbn [fst snd].
  now destruct (encoder_refuses py _).
Qed.


(** X2: the model named in the body has no part in the call: two bodies
    with the same messages lead to the same trace -- the same request, if
    one is sent -- and, when both are answered with status 200, to the
    same message content; an answer with status 200 echoes the body's
    model (default "claude-sonnet-4"). *)
Theorem model_is_only_echoed
    (environ : list (pystr * pystr)) (py : runtime) (requests_post : request -> result response)
    (f f' : list (pystr * json)) :
  get_default (lit "messages") f (JArr []) = get_default (lit "messages") f' (JArr []) ->
  fst (chat_completions environ py requests_post POST (inr (JObj f))) =
    fst (chat_completions environ py requests_post POST (inr (JObj f')))
  /\ (status (snd (chat_completions environ py requests_post POST (inr (JObj f)))) = 200%Z ->
      status (snd (chat_completions environ py requests_post POST (inr (JObj f')))) = 200%Z ->
      completion_content (body (snd (chat_completions environ py requests_post POST (inr (JObj f))))) =
        completion_content (body (snd (chat_completions environ py requests_post POST (inr (JObj f'))))))
  /\ (status (snd (chat_completions environ py requests_post POST (inr (JObj f)))) = 200%Z ->
      field (lit "model") (body (snd (chat_completions environ py requests_post POST (inr (JObj f))))) =
        Some (get_default (lit "model") f (JStr (lit "claude-sonnet-4")))).
Proof.
  intros Hm.
  rewrite (chat_completions_object environ py requests_post f JNull).
  rewrite (chat_completions_object environ py requests_post f' JNull).
  rewrite Hm. cbn [fst snd].
  split; [reflexivity|]. split.
  - destruct (encoder_refuses py _); [discriminate|].
    destruct (encoder_refuses py _); [discriminate|]. reflexivity.
  - destruct (encoder_refuses py _); [discriminate | reflexivity].
Qed.

Lemma model_is_only_echoed_witness :
  fst (chat_completions (Sample.environ_with "aGk") Sample.lenient (Sample.vendor 200 (Sample.reply "hello")) POST
         (inr (JObj [(lit "model", JStr (lit "gpt-4o"));
                     (lit "messages", JArr [Sample.message "user" (JStr (lit "hi"))])]))) =
    fst (chat_completions (Sample.environ_with "aGk") Sample.lenient (Sample.vendor 200 (Sample.reply "hello")) POST
           (inr (JObj [(lit "messages", JArr [Sample.message "user" (JStr (lit "hi"))])]))).
Proof.
  apply (model_is_only_echoed (Sample.environ_with "aGk") Sample.lenient
           (Sample.vendor 200 (Sample.reply "hello"))
           [(lit "model", JStr (lit "gpt-4o"));
            (lit "messages", JArr [Sample.message "user" (JStr (lit "hi"))])]
           [(lit "messages", JArr [Sample.message "user" (JStr (lit "hi"))])]).
  reflexivity.
Defined.

(** X8: end to end, for a body that is an object, a credential that
    decodes and messages that translate: when the vendor answers with
    status 200 and a content whose first block is an object with a text
    entry, and the encoder takes the completion, the route answers 200
    with a completion whose message content is that text; later blocks
    are not looked at. *)
Theorem first_block_text_is_returned
    (environ : list (pystr * pystr)) (py : runtime) (requests_post : request -> result response)
    (fields : list (pystr * json)) (payload : json) (decoded_url : pystr)
    (resp : response) (answer block : list (pystr * json)) (rest : list json) (t : json) :
  BEARER_TOKEN environ <> [] ->
  decode_credential (BEARER_TOKEN environ) = inr decoded_url ->
  translate (get_default (lit "messages") fields (JArr [])) = inr payload ->
  requests_post (vendor_request (BEARER_TOKEN environ) payload) = inr resp ->
  status_code resp = 200%Z ->
  json_body resp = inr (JObj answer) ->
  lookup (lit "content") answer = Some (JArr (JObj block :: rest)) ->
  lookup (lit "text") block = Some t ->
  encoder_refuses py
    (completion (get_default (lit "model") fields (JStr (lit "claude-sonnet-4"))) t) = None ->
  snd (chat_completions environ py requests_post POST (inr (JObj fields))) =
    {| status := 200;
       body :=
         JObj [(lit "id", JStr (lit "chatcmpl-bedrock"));
               (lit "object", JStr (lit "chat.completion"));
               (lit "created", JInt 1234567890);
               (lit "model",
                get_default (lit "model") fields (JStr (lit "claude-sonnet-4")));
               (lit "choices",
                JArr [JObj [(lit "index", JInt 0);
                            (lit "message",
                             JObj [(lit "role", JStr (lit "assistant"));
                                   (lit "content", t)]);
                            (lit "finish_reason", JStr (lit "stop"))]]);
               (lit "usage",
                JObj [(lit "prompt_tokens", JInt 10);
                      (lit "completion_tokens", JInt 20);
                      (lit "total_tokens", JInt 30)])];
       set_headers := [] |}.
Proof.
  intros Hne Hdec Htr Hpost H200 Hbody Hcontent Htext Henc.
  rewrite (chat_completions_object environ py requests_post fields JNull). cbn [snd].
  rewrite (call_bedrock_api_200 environ py requests_post decoded_url _ JNull
             payload resp Hne Hdec Htr Hpost H200).
  rewrite Hbody. cbn [bind].
  rewrite (reply_text_present answer block rest t Hcontent Htext).
  rewrite Henc. reflexivity.
Qed.

Lemma first_block_text_is_returned_witness :
  snd (chat_completions (Sample.environ_with "aGk") Sample.lenient
         (Sample.vendor 200
            (JObj [(lit "content",
                    JArr [JObj [(lit "type", JStr (lit "text")); (lit "text", JStr (lit "hi"))];
                          JObj [(lit "type", JStr (lit "text")); (lit "text", JStr (lit "more"))]])]))
         POST
         (inr (JObj [(lit "messages", JArr [Sample.message "user" (JStr (lit "hello"))])]))) =
    jsonify (completion (JStr (lit "claude-sonnet-4")) (JStr (lit "hi"))).
Proof.
  apply (first_block_text_is_returned (Sample.environ_with "aGk") Sample.lenient
           (Sample.vendor 200
              (JObj [(lit "content",
                      JArr [JObj [(lit "type", JStr (lit "text")); (lit "text", JStr (lit "hi"))];
                            JObj [(lit "type", JStr (lit "text")); (lit "text", JStr (lit "more"))]])]))
           [(lit "messages", JArr [Sample.message "user" (JStr (lit "hello"))])]
           (bedrock_payload (lit "")
              [claude_message (JStr (lit "user")) (JStr (lit "hello"))])
           (lit "hi")
           {| status_code := 200; text := lit "{}";
              json_body :=
                inr (JObj [(lit "content",
                            JArr [JObj [(lit "type", JStr (lit "text")); (lit "text", JStr (lit "hi"))];
                                  JObj [(lit "type", JStr (lit "text")); (lit "text", JStr (lit "more"))]])]) |}
           [(lit "content",
             JArr [JObj [(lit "type", JStr (lit "text")); (lit "text", JStr (lit "hi"))];
                   JObj [(lit "type", JStr (lit "text")); (lit "text", JStr (lit "more"))]])]
           [(lit "type", JStr (lit "text")); (lit "text", JStr (lit "hi"))]
           [JObj [(lit "type", JStr (lit "text")); (lit "text", JStr (lit "more"))]]
           (JStr (lit "hi"))).
  - discriminate.
  - vm_compute; reflexivity.
  - vm_compute; reflexivity.
  - reflexivity.
  - reflexivity.
  - reflexivity.
  - reflexivity.
  - reflexivity.
- reflexivity.
Defined.

(* ------------------------------------------------------------------ *)
(** ** More on the translation *)

Lemma translate_message_irrelevant (st : pystr * list json) (f : list (pystr * json)) :
  relevant (JObj f) = false -> translate_message st (JObj f) = inr st.
Proof.
  unfold relevant, is_turn, role_of. intros H.
  apply orb_false_elim in H as [Hsys Hturn].
  destruct st as [sp cms].
  unfold translate_message. cbn [bind py_get].
  now rewrite Hsys, Hturn.
Qed.

(** X12: messages whose role is none of system, user and assistant (or
    that have no role) are passed over, whatever their content: a list of
    objects translates as the list without them. *)
Theorem other_roles_are_ignored (msgs : list json) :
  forallb is_object msgs = true ->
  translate (JArr msgs) = translate (JArr (filter relevant msgs)).
Proof.
  intros Hobj. unfold translate. cbn [bind py_iter].
  assert (forall st, translate_messages msgs st =
                     translate_messages (filter relevant msgs) st) as ->;
    [|reflexivity].
  induction msgs as [|msg rest IH]; intros st; [reflexivity|].
  cbn [forallb] in Hobj. apply andb_prop in Hobj as [Hmsg Hrest].
  cbn [filter]. destruct (relevant msg) eqn:Hrel; cbn [translate_messages].
  - destruct (translate_message st msg) as [e|st']; [reflexivity|].
    cbn [bind]. now apply IH.
  - destruct msg as [| | | | |items|f]; try discriminate.
    rewrite (translate_message_irrelevant st f Hrel). cbn [bind]. now apply IH.
Qed.

Lemma other_roles_are_ignored_witness :
  translate
    (JArr [Sample.message "tool" (JArr [JNull]);
           Sample.message "user" (JStr (lit "hi"));
           JObj [(lit "content", JInt 3)]]) =
  translate
    (JArr (filter relevant
             [Sample.message "tool" (JArr [JNull]);
              Sample.message "user" (JStr (lit "hi"));
              JObj [(lit "content", JInt 3)]])).
Proof.
  apply (other_roles_are_ignored
           [Sample.message "tool" (JArr [JNull]);
            Sample.message "user" (JStr (lit "hi"));
            JObj [(lit "content", JInt 3)]]).
  reflexivity.
Defined.

Lemma translate_message_prompt (sp sp' : pystr) (cms cms' : list json) (msg : json) :
  translate_message (sp, cms) msg = inr (sp', cms') ->
  sp' = sp ++ List.concat (map (fun t => t ++ newline) (system_texts [msg])).
Proof.
  destruct msg as [| | | | |items|f]; try discriminate.
  unfold translate_message. cbn [system_texts bind py_get].
  unfold role_of.
  set (r := get_default (lit "role") f JNull).
  destruct (eq_str r (lit "system")) eqn:Hsys.
  - destruct (get_default (lit "content") f (JStr (lit ""))) as [| | | |t| |];
      try discriminate.
    cbn [py_add_str bind map List.concat]. intros [= <- _].
    now rewrite app_nil_r.
  - intros H. cbn [map List.concat]. rewrite app_nil_r.
    destruct (eq_str r (lit "user") || eq_str r (lit "assistant")).
    + destruct (get_default (lit "content") f (JStr (lit ""))) as [| | | | |items|g];
        try (now injection H as <- _).
      apply bind_inr in H as (blocks & _ & H). now injection H as <- _.
    + now injection H as <- _.
Qed.

Lemma system_texts_cons (msg : json) (rest : list json) :
  system_texts (msg :: rest) = system_texts [msg] ++ system_texts rest.
Proof.
  cbn [system_texts].
  destruct msg as [| | | | |items|f]; try reflexivity.
  destruct (eq_str _ _); [|reflexivity].
  now destruct (get_default _ _ _).
Qed.

Lemma translate_messages_prompt (msgs : list json) :
  forall sp cms sp' cms',
    translate_messages msgs (sp, cms) = inr (sp', cms') ->
    sp' = sp ++ List.concat (map (fun t => t ++ newline) (system_texts msgs)).
Proof.
  induction msgs as [|msg rest IH]; intros sp cms sp' cms'; cbn [translate_messages].
  - intros [= <- _]. cbn. now rewrite app_nil_r.
  - intros H. apply bind_inr in H as ([sp1 cms1] & Hmsg & Hrest).
    apply translate_message_prompt in Hmsg. apply IH in Hrest.
    subst sp' sp1.
    rewrite (system_texts_cons msg rest), map_app, concat_app.
    now rewrite app_assoc.
Qed.

(** X13: in any conversation that translates, with system messages
    anywhere among the turns, the system prompt of the payload is the
    trimmed newline-joined text of the system messages in their order, left
    out when it is empty. *)
Theorem system_prompt_of_a_conversation (msgs : list json) (p : json) :
  translate (JArr msgs) = inr p ->
  field (lit "system") p =
    match strip (join newline (system_texts msgs)) with
    | [] => None
    | _ :: _ => Some (JStr (strip (join newline (system_texts msgs))))
    end.
Proof.
  unfold translate. cbn [bind py_iter]. intros H.
  apply bind_inr in H as ([sp cms] & Hloop & [= <-]). cbn [fst snd].
  apply translate_messages_prompt in Hloop.
  change (lit "" ++ ?x) with x in Hloop. subst sp.
  rewrite field_system. now rewrite strip_lines.
Qed.

Lemma system_prompt_of_a_conversation_witness :
  field (lit "system")
    (bedrock_payload (lit "be brief" ++ newline ++ lit " and kind " ++ newline)
       [claude_message (JStr (lit "user")) (JStr (lit "hi"))]) =
    match strip (join newline
                   (system_texts
                      [Sample.message "system" (JStr (lit "be brief"));
                       Sample.message "user" (JStr (lit "hi"));
                       Sample.message "system" (JStr (lit " and kind "))])) with
    | [] => None
    | _ :: _ =>
        Some (JStr (strip (join newline
                             (system_texts
                                [Sample.message "system" (JStr (lit "be brief"));
                                 Sample.message "user" (JStr (lit "hi"));
                                 Sample.message "system" (JStr (lit " and kind "))]))))
    end.
Proof.
  apply (system_prompt_of_a_conversation
           [Sample.message "system" (JStr (lit "be brief"));
            Sample.message "user" (JStr (lit "hi"));
            Sample.message "system" (JStr (lit " and kind "))]).
  vm_compute; reflexivity.
Defined.

(** X14: a system prompt that is sent is never empty and carries no white
    space at either end. *)
Theorem system_prompt_is_trimmed (messages p : json) (s : pystr) :
  translate messages = inr p ->
  field (lit "system") p = Some (JStr s) ->
  s <> [] /\ strip s = s.
Proof.
  unfold translate. intros H.
  apply bind_inr in H as (msgs & _ & H).
  apply bind_inr in H as ([sp cms] & _ & [= <-]). cbn [fst snd].
  rewrite field_system.
  destruct (strip sp) as [|c t] eqn:E; [discriminate|].
  intros [= <-]. split; [discriminate|].
  rewrite <- E. apply strip_idem.
Qed.

Lemma system_prompt_is_trimmed_witness :
  lit "be brief" <> [] /\ strip (lit "be brief") = lit "be brief".
Proof.
  apply (system_prompt_is_trimmed
           (JArr [Sample.message "system" (JStr (lit "  be brief "))])
           (bedrock_payload (lit "  be brief " ++ newline) [])
           (lit "be brief")).
  - vm_compute; reflexivity.
  - vm_compute; reflexivity.
Defined.

Lemma translate_item_blocks (item : json) (blocks : list json) :
  translate_item item = inr blocks -> (List.length blocks <= 1)%nat.
Proof.
  destruct item as [| | | | |items|f]; try discriminate.
  unfold translate_item. cbn [bind py_get].
  destruct (eq_str (get_default (lit "type") f JNull) (lit "text")).
  { intros [= <-]. simpl. lia. }
  destruct (eq_str (get_default (lit "type") f JNull) (lit "image_url")).
  2:{ intros [= <-]. simpl. lia. }
  intros H.
  apply bind_inr in H as (image_url & _ & H).
  apply bind_inr in H as (is_data & _ & H).
  destruct is_data.
  2:{ injection H as <-. simpl. lia. }
  apply bind_inr in H as (parts & _ & H).
  apply bind_inr in H as ([header data] & _ & H).
  apply bind_inr in H as (after_colon & _ & H).
  apply bind_inr in H as (mime_type & _ & H).
  injection H as <-. simpl. lia.
Qed.

(** X15: the blocks of a list content: the blocks gathered before are
    kept in front, and every item adds at most one block. *)
Theorem at_most_one_block_per_item (items acc blocks : list json) :
  translate_content items acc = inr blocks ->
  exists new,
    blocks = acc ++ new /\ (List.length new <= List.length items)%nat.
Proof.
  revert acc; induction items as [|item rest IH]; intros acc; cbn [translate_content].
  - intros [= <-]. exists []. split; [now rewrite app_nil_r | simpl; lia].
  - intros H. apply bind_inr in H as (bs & Hitem & Hrest).
    apply translate_item_blocks in Hitem.
    apply IH in Hrest as (new & -> & Hlen).
    exists (bs ++ new). split; [now rewrite app_assoc|].
    rewrite length_app. simpl. lia.
Qed.

Lemma at_most_one_block_per_item_witness :
  exists new,
    [text_block (JStr (lit "look")); image_block (lit "image/png") (lit "QUJD")]
    = [] ++ new
    /\ (List.length new <=
        List.length [Sample.text_item "look";
                     Sample.image_item "https://example.com/cat.png";
                     JObj [(lit "type", JStr (lit "audio"))];
                     Sample.image_item "data:image/png;base64,QUJD"])%nat.
Proof.
  apply (at_most_one_block_per_item
           [Sample.text_item "look";
            Sample.image_item "https://example.com/cat.png";
            JObj [(lit "type", JStr (lit "audio"))];
            Sample.image_item "data:image/png;base64,QUJD"]
           []).
  vm_compute; reflexivity.
Defined.

(** Text items, one block each. *)
Lemma text_items_blocks (items acc : list json) :
  forallb is_text_item items = true ->
  translate_content items acc =
    inr (acc ++ map (fun item => text_block (text_of item)) items).
Proof.
  revert acc; induction items as [|item rest IH]; intros acc Htext;
    cbn [translate_content map].
  - now rewrite app_nil_r.
  - cbn [forallb] in Htext. apply andb_prop in Htext as [Hitem Hrest].
    destruct item as [| | | | |items|f]; try discriminate.
    unfold translate_item. cbn [bind py_get].
    cbn [is_text_item] in Hitem. rewrite Hitem. cbn [bind text_of].
    rewrite (IH _ Hrest). now rewrite <- app_assoc.
Qed.

(** X16: a list content made of text items is translated item by item, in
    order, into text blocks that carry each item's text entry as it came
    (the empty string when the item has none). *)
Theorem text_items_become_text_blocks (items acc : list json) :
  forallb is_text_item items = true ->
  translate_content items acc =
    inr (acc ++ map (fun item =>
                       JObj [(lit "type", JStr (lit "text"));
                             (lit "text", text_of item)]) items).
Proof. exact (text_items_blocks items acc). Qed.

Lemma text_items_become_text_blocks_witness :
  translate_content
    [Sample.text_item "one"; JObj [(lit "type", JStr (lit "text"))];
     JObj [(lit "type", JStr (lit "text")); (lit "text", JInt 3)]] [] =
    inr ([] ++ map (fun item =>
                      JObj [(lit "type", JStr (lit "text"));
                            (lit "text", text_of item)])
                 [Sample.text_item "one"; JObj [(lit "type", JStr (lit "text"))];
                  JObj [(lit "type", JStr (lit "text")); (lit "text", JInt 3)]]).
Proof.
  apply (text_items_become_text_blocks
           [Sample.text_item "one"; JObj [(lit "type", JStr (lit "text"))];
            JObj [(lit "type", JStr (lit "text")); (lit "text", JInt 3)]] []).
  reflexivity.
Defined.

(** X17: a messages value that is not a list is iterated as Python does:
    the empty string and the empty object are an empty conversation, and
    every other value that is not a list makes the translation raise. *)
Theorem messages_that_are_no_list (v : json) :
  (forall l, v <> JArr l) ->
  (v = JStr [] \/ v = JObj [] -> translate v = inr (bedrock_payload (lit "") []))
  /\ (v <> JStr [] -> v <> JObj [] -> exists e, translate v = inl e).
Proof.
  intros Hlist. split.
  - intros [-> | ->]; reflexivity.
  - intros Hstr Hobj.
    destruct v as [| | | |s|items|f]; try (eexists; reflexivity).
    + destruct s as [|c s]; [congruence | eexists; reflexivity].
    + now destruct (Hlist items).
    + destruct f as [|[k x] f]; [congruence | eexists; reflexivity].
Qed.

Lemma messages_that_are_no_list_witness :
  exists e, translate (JStr (lit "hi")) = inl e.
Proof.
  apply (messages_that_are_no_list (JStr (lit "hi"))); discriminate.
Defined.

(* ------------------------------------------------------------------ *)
(** ** The request cycle *)



(** X19: over a whole request cycle an outbound call is made only for a
    POST to the chat-completions rule whose body is a JSON object, with a
    credential that is not empty; the hook and the models listing never
    call the vendor. *)
Theorem only_chat_posts_reach_the_vendor
    (environ : list (pystr * pystr)) (py : runtime) (requests_post : request -> result response)
    (req : inbound) :
  posts (fst (serve environ py requests_post req)) <> [] ->
  req_method req = lit "POST"
  /\ req_rule req = Some RuleChat
  /\ (exists f, req_json req = inr (JObj f))
  /\ BEARER_TOKEN environ <> [].
Proof.
  unfold serve, handle_preflight.
  destruct (str_eqb (req_method req) (lit "OPTIONS")) eqn:Hopt;
    [intros H; now destruct H|].
  destruct (req_rule req) as [[|]|]; try (intros H; now destruct H).
  - destruct (_ || _); intros H; now destruct H.
  - destruct (str_eqb (req_method req) (lit "POST")) eqn:Hpost;
      [|intros H; now destruct H].
    apply str_eqb_eq in Hpost.
    destruct (req_json req) as [e|j]; [intros H; now destruct H|].
    destruct j as [| | | | |items|f]; try (intros H; now destruct H).
    rewrite (chat_completions_object environ py requests_post f JNull).
    cbn [app fst].
    destruct (BEARER_TOKEN environ) as [|c t] eqn:Htok.
    + unfold call_bedrock_api, call_bedrock_api_try. rewrite Htok.
      intros H; now destruct H.
    + intros _. repeat split; [exact Hpost | eauto | discriminate].
Qed.

Lemma only_chat_posts_reach_the_vendor_witness :
  req_method
    {| req_method := lit "POST"; req_path := lit "/v1/chat/completions";
       req_rule := Some RuleChat; req_headers_text := lit "{}";
       req_json := inr (JObj [(lit "messages", JArr [Sample.message "user" (JStr (lit "hi"))])]) |}
  = lit "POST"
  /\ Some RuleChat = Some RuleChat
  /\ (exists f,
        inr (JObj [(lit "messages", JArr [Sample.message "user" (JStr (lit "hi"))])])
        = @inr exn json (JObj f))
  /\ BEARER_TOKEN (Sample.environ_with "aGk") <> [].
Proof.
  apply (only_chat_posts_reach_the_vendor (Sample.environ_with "aGk") Sample.lenient
           (Sample.vendor 200 (Sample.reply "hello"))
           {| req_method := lit "POST"; req_path := lit "/v1/chat/completions";
              req_rule := Some RuleChat; req_headers_text := lit "{}";
              req_json := inr (JObj [(lit "messages", JArr [Sample.message "user" (JStr (lit "hi"))])]) |}).
  vm_compute. discriminate.
Defined.

(** X20: PUT and DELETE, which the hook's Access-Control-Allow-Methods
    header names, are listed by neither rule: the hook runs, prints
    nothing and lets the request pass, no view answers it, and the request
    is left to the framework with nothing printed or sent. *)
Theorem put_and_delete_reach_no_view
    (environ : list (pystr * pystr)) (py : runtime) (requests_post : request -> result response)
    (req : inbound) :
  req_method req = lit "PUT" \/ req_method req = lit "DELETE" ->
  handle_preflight req = ([], None)
  /\ serve environ py requests_post req = ([], None).
Proof.
  intros Hm. unfold serve, handle_preflight.
  destruct Hm as [-> | ->];
    (split; [reflexivity | destruct (req_rule req) as [[|]|]; reflexivity]).
Qed.

Lemma put_and_delete_reach_no_view_witness :
  serve (Sample.environ_with "aGk") Sample.lenient (Sample.vendor 200 (Sample.reply "hello"))
    {| req_method := lit "DELETE"; req_path := lit "/v1/models";
       req_rule := Some RuleModels; req_headers_text := lit "{}";
       req_json := inl Sample.bad_request |} = ([], None).
Proof.
  apply (put_and_delete_reach_no_view (Sample.environ_with "aGk") Sample.lenient
           (Sample.vendor 200 (Sample.reply "hello"))
           {| req_method := lit "DELETE"; req_path := lit "/v1/models";
              req_rule := Some RuleModels; req_headers_text := lit "{}";
              req_json := inl Sample.bad_request |}).
  right; reflexivity.
Defined.
